(** * ETC_CRM-ADMIN: pagination windows, status classification, addon forms

    A shallow embedding of the pure and state-passing logic of the
    dashboard: the page-window computation of the three [Pagination]
    components, the traffic-light classifier [toStatuses], and the
    submit handlers of the create-addon and edit-addon forms.

    Conventions.
    - Page numbers are JavaScript numbers holding integers: a page
      number is the [Z] that the binary64 value represents. [+] and [-]
      on them round their exact result to the nearest binary64 value
      ([Js.int_add], [Js.int_sub]); up to [2^53] in magnitude nothing is
      rounded. [Math.max]/[Math.min] are [Z.max]/[Z.min], the comparisons
      are those of [Z], and [Math.floor (5 / 2)] is the floor division
      [5 / 2].
    - Measured values ([parseFloat], [Number]) are IEEE-754 binary64
      values, modelled by the Standard Library's [spec_float]; [<] is
      [SFltb], so comparisons with NaN are false as in JavaScript.
    - A JavaScript string is its sequence of UTF-16 code units,
      [list N]. *)

From Stdlib Require Import ZArith NArith List Lia Ascii String.
From Stdlib Require Import Floats.SpecFloat.
From stdpp Require Import base option list sorting.

Local Open Scope Z_scope.

(* ===================================================================== *)
(** * Part I: definitions                                                 *)
(* ===================================================================== *)

(** ** JavaScript values *)

Module Js.

(** [Array.from({ length: len }, (_, i) => f i)]: the indices
    [0 .. len-1] mapped through [f]. A negative [len] is clamped to
    [0] by [ToLength], which is what [seqZ] does as well. *)
Definition Array_from (len : Z) (f : Z → Z) : list Z :=
  f <$> seqZ 0 len.

(** *** Integers held in a number

    A binary64 value has a significand of 53 bits, so every integer up
    to [2^53] in magnitude is a number, and beyond that only the
    multiples of the power of two that its magnitude calls for.
    [Number.MAX_SAFE_INTEGER] is [2^53 - 1]. *)
Definition MAX_SAFE_INTEGER : Z := 9007199254740991.

(** The binary64 value nearest to the integer [z], a tie going to the
    even significand. With [2^(52+e) <= |z| < 2^(53+e)] the candidates are
    the multiples [q * 2^e] and [(q + 1) * 2^e] around [|z|]. Overflow to
    [Infinity] is out of reach here: the program adds at most
    [windowSize] to a number or subtracts one number from another, and
    next to the largest numbers that rounds back to a number. *)
Definition round53 (z : Z) : Z :=
  let a := Z.abs z in
  if a <=? 2 ^ 53 then z
  else
    let e := Z.log2 a - 52 in
    let q := a / 2 ^ e in
    let r := a mod 2 ^ e in
    let half := 2 ^ (e - 1) in
    let q' := if r <? half then q
              else if half <? r then q + 1
              else if Z.even q then q else q + 1 in
    Z.sgn z * (q' * 2 ^ e).

(** [x + y] and [x - y] on numbers that hold the integers [x] and [y]:
    the exact result, rounded. *)
Definition int_add (x y : Z) : Z := round53 (x + y).
Definition int_sub (x y : Z) : Z := round53 (x - y).

(** *** Strings *)

Abbreviation jsstring := (list N).

(** An ASCII literal as a JavaScript string. *)
Definition str (s : string) : jsstring :=
  (λ a, N_of_ascii a) <$> list_ascii_of_string s.

(** [x || d] for a string [x] that may be [undefined] or [null]: the
    falsy strings are the missing one and the empty one. *)
Definition or_default (x : option jsstring) (d : jsstring) : jsstring :=
  match x with
  | Some (c :: s) => c :: s
  | _ => d
  end.

(** [!s]: only the empty string is falsy. *)
Definition falsy (s : jsstring) : bool :=
  match s with [] => true | _ :: _ => false end.

(** [a !== b] on strings compares the code units. *)
Definition strict_neq (a b : jsstring) : bool := negb (bool_decide (a = b)).

(** ECMAScript [WhiteSpace] and [LineTerminator] code units, the ones
    [String.prototype.trim] strips. *)
Definition isWhiteSpace (c : N) : bool :=
  ((9 <=? c) && (c <=? 13) || (c =? 32) || (c =? 160) || (c =? 0x1680)
   || (0x2000 <=? c) && (c <=? 0x200A) || (c =? 0x2028) || (c =? 0x2029)
   || (c =? 0x202F) || (c =? 0x205F) || (c =? 0x3000) || (c =? 0xFEFF))%N.

Fixpoint trimStart (s : jsstring) : jsstring :=
  match s with
  | [] => []
  | c :: s' => if isWhiteSpace c then trimStart s' else s
  end.

Definition trimEnd (s : jsstring) : jsstring :=
  reverse (trimStart (reverse s)).

Definition trim (s : jsstring) : jsstring := trimEnd (trimStart s).

(** [Canonicalize] of a regular expression with the [i] flag and without
    the [u] flag, on the ASCII range: a lower-case letter becomes its
    upper-case one. A code unit from 128 on is never canonicalized to an
    ASCII one, so against the ASCII patterns of this program leaving it
    alone decides the same matches. *)
Definition canonicalize (c : N) : N :=
  (if (97 <=? c) && (c <=? 122) then c - 32 else c)%N.

(** The literal pattern [pat] matches at the start of [s], ignoring case. *)
Fixpoint match_here (pat s : jsstring) : bool :=
  match pat, s with
  | [], _ => true
  | _ :: _, [] => false
  | p :: pat', c :: s' =>
      (canonicalize p =? canonicalize c)%N && match_here pat' s'
  end.

(** [/pat/i.test(s)] for a pattern of literal characters: the matcher is
    tried at every start position, from left to right. *)
Fixpoint regex_test_i (pat s : jsstring) : bool :=
  match_here pat s ||
  match s with
  | [] => false
  | _ :: s' => regex_test_i pat s'
  end.

(** *** Numbers *)

Abbreviation number := spec_float.

(** A positive binary64 literal [m * 2^e]. *)
Definition binary64 (m : positive) (e : Z) : number := S754_finite false m e.

Definition NaN : number := S754_nan.
Definition zero : number := S754_zero false.

(** The number nearest to an integer, and the integer that a number
    holds when it holds one. *)
Definition of_int (z : Z) : number := binary_normalize 53 1024 z 0 false.

Definition to_int (x : number) : option Z :=
  match x with
  | S754_zero _ => Some 0
  | S754_finite s m e =>
      let magnitude :=
        if 0 <=? e then Some (Z.pos m * 2 ^ e)
        else if Z.pos m mod 2 ^ (- e) =? 0 then Some (Z.pos m / 2 ^ (- e))
        else None in
      (λ a, if s then - a else a) <$> magnitude
  | S754_infinity _ | S754_nan => None
  end.

(** [x < y], [x <= y], [x >= y]; each is false when an operand is NaN. *)
Definition lt (x y : number) : bool := SFltb x y.
Definition le (x y : number) : bool := SFleb x y.
Definition ge (x y : number) : bool := SFleb y x.

(** [isFinite(x)] and [Number.isFinite(x)] on a number. *)
Definition isFinite (x : number) : bool :=
  match x with
  | S754_zero _ | S754_finite _ _ _ => true
  | S754_infinity _ | S754_nan => false
  end.

Definition isNaN (x : number) : bool :=
  match x with S754_nan => true | _ => false end.

(** What lies strictly below a positive finite threshold. *)
Definition below (mc : positive) (ec : Z) (v : number) : Prop :=
  match v with
  | S754_nan => False
  | S754_infinity s => s = true
  | S754_zero _ => True
  | S754_finite true _ _ => True
  | S754_finite false m e => e < ec ∨ (e = ec ∧ (m < mc)%positive)
  end.

(** What lies at or above a positive finite threshold. *)
Definition at_least (mc : positive) (ec : Z) (v : number) : Prop :=
  match v with
  | S754_nan => False
  | S754_infinity s => s = false
  | S754_zero _ => False
  | S754_finite true _ _ => False
  | S754_finite false m e => ec < e ∨ (e = ec ∧ (mc ≤ m)%positive)
  end.

(** *** Handlers

    An event handler runs against the component's state and leaves a
    trace of the effects it performs on the outside. *)

Definition M (S E A : Type) : Type := S → list E → A * S * list E.

#[global] Instance M_ret {S E} : MRet (M S E) := λ A a st tr, (a, st, tr).

#[global] Instance M_bind {S E} : MBind (M S E) :=
  λ A B k m st tr, let '(a, st', tr') := m st tr in k a st' tr'.

Definition modify {S E} (f : S → S) : M S E unit := λ st tr, (tt, f st, tr).

Definition emit {S E} (e : E) : M S E unit := λ st tr, (tt, st, tr ++ [e]).

(** Running a handler from a state, with an empty trace. *)
Definition run {S E A} (m : M S E A) (st : S) : S * list E :=
  let '(_, st', tr) := m st [] in (st', tr).

(** The outcome of an awaited request: the promise resolves, rejects
    with an error whose [message] may be missing, or rejects with
    [undefined] or [null], on which reading [message] throws. *)
Inductive Response :=
| Resolved
| Rejected (message : option jsstring)
| RejectedNullish.

End Js.

(** ** Pagination windows *)

(** [src/unnamed/part_000], lines 277-300: [Pagination] of the addons
    page (the version wrapped in [Suspense]). *)
Module AddonsPage.

Definition windowSize : Z := 5.

Definition pages (currentPage totalPages : Z) : list Z :=
  let half := windowSize / 2 in
  let start := Z.max 1 (Js.int_sub currentPage half) in
  let end_ :=
    Z.min totalPages (Js.int_sub (Js.int_add start windowSize) 1) in
  let start :=
    Z.max 1 (Z.min start (Js.int_add (Js.int_sub end_ windowSize) 1)) in
  Js.Array_from (Js.int_add (Js.int_sub end_ start) 1)
    (λ i, Js.int_add start i).

Definition prev (currentPage : Z) : Z := Z.max 1 (Js.int_sub currentPage 1).
Definition next (currentPage totalPages : Z) : Z :=
  Z.min totalPages (Js.int_add currentPage 1).

End AddonsPage.

(** [src/unnamed/part_000], lines 668-685: [Pagination] of the second
    addons page, which takes the whole pagination object. *)
Module AddonsPageClient.

Record Pagination := {
  totalItems : Z;
  totalPages : Z;
  currentPage : Z;
  limit : Z;
  hasNextPage : bool;
  hasPrevPage : bool
}.

Definition windowSize : Z := 5.

Definition pages (pagination : Pagination) : list Z :=
  let currentPage := currentPage pagination in
  let totalPages := totalPages pagination in
  let half := windowSize / 2 in
  let start := Z.max 1 (Js.int_sub currentPage half) in
  let end_ :=
    Z.min totalPages (Js.int_sub (Js.int_add start windowSize) 1) in
  let start :=
    Z.max 1 (Z.min start (Js.int_add (Js.int_sub end_ windowSize) 1)) in
  Js.Array_from (Js.int_add (Js.int_sub end_ start) 1)
    (λ i, Js.int_add start i).

End AddonsPageClient.

(** [src/unnamed/part_001], lines 146-193: the server-component
    [Pagination] of the workspace (properties) page. There is no second
    assignment to [start]. *)
Module WorkspacePage.

Definition windowSize : Z := 5.

Definition pages (currentPage totalPages : Z) : list Z :=
  let start := Z.max 1 (Js.int_sub currentPage (windowSize / 2)) in
  let end_ :=
    Z.min totalPages (Js.int_sub (Js.int_add start windowSize) 1) in
  Js.Array_from (Js.int_add (Js.int_sub end_ start) 1)
    (λ i, Js.int_add start i).

End WorkspacePage.

(** The window as section 4.1 of the specification words it, with the
    constants of [windowSize = 5] folded: [half = 2], [start0 + 4],
    [end - 4], and the result the closed interval [[start..end]]. The
    specification computes with the integers themselves: nothing is
    rounded here. *)
Module WindowSpec.

(** [[a..b]]: the integers from [a] up to [b], in increasing order. *)
Definition interval (a b : Z) : list Z := seqZ a (b - a + 1).

Definition half : Z := 2.

Definition computeWindow (currentPage totalPages : Z) : list Z :=
  let start0 := Z.max 1 (currentPage - half) in
  let end_ := Z.min totalPages (start0 + 4) in
  let start := Z.max 1 (Z.min start0 (end_ - 4)) in
  interval start end_.

End WindowSpec.

(** ** Status panel *)

(** [src/app/(auth)/layout.tsx], lines 8-110:
    [components/dashboard/SecurityStatusContainer.tsx]. The
    [console.log] of [toStatuses] leaves no mark on its result and is
    not modelled. *)
Module SecurityStatusContainer.

(** [ApiStatusResponse["data"]]. The fields that [toStatuses] guards with
    [||] or [?.] may be missing from the response. *)
Module Api.

Record Memory := {
  totalGB : Js.jsstring;
  usedGB : Js.jsstring;
  usagePercent : Js.jsstring
}.

Record WebhookStatus := {
  success : bool;
  message : Js.jsstring;
  webhookId : option Js.jsstring;
  webhookUrl : option Js.jsstring;
  events : option (list Js.jsstring)
}.

Record Data := {
  server : option Js.jsstring;
  dbStatus : option Js.jsstring;
  cpuLoad : option Js.jsstring;
  memory : option Memory;
  paymentWebhookStatus : option WebhookStatus
}.

End Api.

Inductive Level := ok | warn | bad.

Inductive Variant := success | warning | destructive.

(** [SecurityStatus] of [@/types/dashboard], as [toStatuses] fills it. *)
Record SecurityStatusType := {
  title : Js.jsstring;
  value : Js.jsstring;
  status : Js.jsstring;
  variant : Variant
}.

Definition pickVariant (level : Level) : Variant :=
  match level with
  | ok => success
  | warn => warning
  | bad => destructive
  end.

(** The numeric literals of the thresholds, as binary64 values:
    [0.7 = 0x1.6666666666666p-1], [1.5 = 0x1.8p+0], [80 = 0x1.4p+6],
    [95 = 0x1.7cp+6]. *)
Definition lit_0_7 : Js.number := Js.binary64 0x16666666666666 (-53).
Definition lit_1_5 : Js.number := Js.binary64 0x18000000000000 (-52).
Definition lit_80 : Js.number := Js.binary64 0x14000000000000 (-46).
Definition lit_95 : Js.number := Js.binary64 0x17c00000000000 (-46).

(** Two sample readings: [0.69 = 0x1.6147ae147ae14p-1] and
    [79.9 = 0x1.3f9999999999ap+6]. *)
Definition lit_0_69 : Js.number := Js.binary64 0x16147ae147ae14 (-53).
Definition lit_79_9 : Js.number := Js.binary64 0x13f9999999999a (-46).

(** [cpu < 0.7 ? "ok" : cpu < 1.5 ? "warn" : "bad"] *)
Definition cpuLevel (cpu : Js.number) : Level :=
  if Js.lt cpu lit_0_7 then ok else if Js.lt cpu lit_1_5 then warn else bad.

(** [memPct < 80 ? "ok" : memPct < 95 ? "warn" : "bad"] *)
Definition memLevel (memPct : Js.number) : Level :=
  if Js.lt memPct lit_80 then ok else if Js.lt memPct lit_95 then warn else bad.

Definition dbConnected (api : Api.Data) : bool :=
  Js.regex_test_i (Js.str "connected") (Js.or_default (Api.dbStatus api) []).

Definition dbLevel (api : Api.Data) : Level :=
  if dbConnected api then ok else bad.

Definition serverUp (api : Api.Data) : bool :=
  Js.regex_test_i (Js.str "server started") (Js.or_default (Api.server api) [])
  || Js.regex_test_i (Js.str "started") (Js.or_default (Api.server api) []).

Definition serverLevel (api : Api.Data) : Level :=
  if serverUp api then ok else bad.

(** [!!api.paymentWebhookStatus?.success] *)
Definition hookOk (api : Api.Data) : bool :=
  match Api.paymentWebhookStatus api with
  | Some hook => Api.success hook
  | None => false
  end.

Definition hookLevel (api : Api.Data) : Level :=
  if hookOk api then ok else bad.

Section ToStatuses.

(** The conversions between strings and numbers are the engine's:
    [parseFloat], [String] on a number, and [toFixed(0)]. *)
Variable parseFloat : Js.jsstring → Js.number.
Variable String : Js.number → Js.jsstring.
Variable toFixed0 : Js.number → Js.jsstring.

Definition cpu (api : Api.Data) : Js.number :=
  parseFloat (Js.or_default (Api.cpuLoad api) (Js.str "0")).

Definition memPct (api : Api.Data) : Js.number :=
  parseFloat
    (Js.or_default (Api.usagePercent <$> Api.memory api) (Js.str "0")).

Definition toStatuses (api : Api.Data) : list SecurityStatusType :=
  [ {| title := Js.str "SERVER";
       value := if serverUp api then Js.str "ONLINE" else Js.str "OFFLINE";
       status := Js.or_default (Api.server api) (Js.str "No server info");
       variant := pickVariant (serverLevel api) |};
    {| title := Js.str "DATABASE";
       value := if dbConnected api then Js.str "CONNECTED"
                else Js.str "DISCONNECTED";
       status := Js.or_default (Api.dbStatus api) (Js.str "No DB info");
       variant := pickVariant (dbLevel api) |};
    {| title := Js.str "CPU LOAD";
       value := if Js.isFinite (cpu api) then String (cpu api)
                else Js.str "N/A";
       status := Js.str "Lower is better";
       variant := pickVariant (cpuLevel (cpu api)) |};
    {| title := Js.str "MEMORY";
       value := match Api.memory api with
                | Some m => Api.usedGB m ++ Js.str "/" ++ Api.totalGB m
                            ++ Js.str " GB"
                | None => Js.str "N/A"
                end;
       status := match Api.memory api with
                 | Some _ => toFixed0 (memPct api) ++ Js.str "% used"
                 | None => Js.str "No memory info"
                 end;
       variant := pickVariant (memLevel (memPct api)) |};
    {| title := Js.str "WEBHOOK";
       value := if hookOk api then Js.str "ACTIVE" else Js.str "INACTIVE";
       status :=
         Js.or_default (Api.message <$> Api.paymentWebhookStatus api)
           (Js.or_default (Api.paymentWebhookStatus api ≫= Api.webhookUrl)
              (Js.str "No webhook info"));
       variant := pickVariant (hookLevel api) |} ].

End ToStatuses.

End SecurityStatusContainer.

(** ** Addon forms *)

(** [src/app/(root)/addons/create/page.tsx]: [CreateAddons]. *)
Module CreateAddons.

Record FormState := {
  title : Js.jsstring;
  description : Js.jsstring;
  value : Js.jsstring
}.

(** The component's [useState] cells. *)
Record State := {
  form : FormState;
  error : option Js.jsstring;
  success : option Js.jsstring;
  submitting : bool
}.

(** What the handler does to the outside: [e.preventDefault()], the
    request [apiClient.post(url, { title, description, value })], and
    [setTimeout(() => startTransition(() => router.replace(path)), ms)]. *)
Inductive Effect :=
| PreventDefault
| ApiPost (url title description : Js.jsstring) (value : Js.number)
| SetTimeout (ms : Z) (replace : Js.jsstring).

Definition setError (e : option Js.jsstring) : Js.M State Effect unit :=
  Js.modify (λ st, {| form := form st; error := e;
                      success := success st; submitting := submitting st |}).

Definition setSuccess (s : option Js.jsstring) : Js.M State Effect unit :=
  Js.modify (λ st, {| form := form st; error := error st;
                      success := s; submitting := submitting st |}).

Definition setSubmitting (b : bool) : Js.M State Effect unit :=
  Js.modify (λ st, {| form := form st; error := error st;
                      success := success st; submitting := b |}).

Section Handlers.

(** [Number] on a string is the engine's; [respond] is how the backend
    answers a request. *)
Variable Number : Js.jsstring → Js.number.
Variable respond : Effect → Js.Response.

Definition apiClient_post (url title description : Js.jsstring)
    (value : Js.number) : Js.M State Effect Js.Response :=
  Js.emit (ApiPost url title description value);;
  mret (respond (ApiPost url title description value)).

(** [onSubmit], for the [form] of the render the handler belongs to. The
    [catch] block reads [err?.message], which is [undefined] on a
    rejection with [undefined] or [null]. *)
Definition onSubmit (form : FormState) : Js.M State Effect unit :=
  Js.emit PreventDefault;;
  setError None;;
  setSuccess None;;
  let title := Js.trim (title form) in
  let description := Js.trim (description form) in
  let valueNum := Number (value form) in
  if Js.falsy title then setError (Some (Js.str "TITLE_IS_REQUIRED")) else
  if Js.falsy description then
    setError (Some (Js.str "DESCRIPTION_IS_REQUIRED")) else
  if negb (Js.isFinite valueNum) || Js.lt valueNum Js.zero then
    setError (Some (Js.str "VALUE_MUST_BE_NON_NEGATIVE_NUMBER")) else
  setSubmitting true;;
  r ← apiClient_post (Js.str "/api/addons/create") title description valueNum;
  match r with
  | Js.Resolved =>
      setSuccess (Some (Js.str "ADDON_CREATED_SUCCESSFULLY"));;
      Js.emit (SetTimeout 1500 (Js.str "/addons"))
  | Js.Rejected message =>
      setError (Some (Js.or_default message (Js.str "FAILED_TO_CREATE_ADDON")))
  | Js.RejectedNullish =>
      setError (Some (Js.str "FAILED_TO_CREATE_ADDON"))
  end;;
  setSubmitting false.

(** Submitting the form shown in state [st]. *)
Definition submit_form (st : State) : State * list Effect :=
  Js.run (onSubmit (form st)) st.

End Handlers.

End CreateAddons.

(** [src/app/(root)/addons/edit/page.tsx]: [EditAddonPage]. *)
Module EditAddonPage.

(** [URLSearchParams]: the query's name-value pairs in order; [get]
    returns the first value under a name. *)
Definition URLSearchParams : Type := list (Js.jsstring * Js.jsstring).

Fixpoint get (sp : URLSearchParams) (name : Js.jsstring)
    : option Js.jsstring :=
  match sp with
  | [] => None
  | (k, v) :: sp' => if bool_decide (k = name) then Some v else get sp' name
  end.

Definition id (sp : URLSearchParams) : Js.jsstring :=
  Js.or_default (get sp (Js.str "id")) [].
Definition initialTitle (sp : URLSearchParams) : Js.jsstring :=
  Js.or_default (get sp (Js.str "title")) [].
Definition initialDescription (sp : URLSearchParams) : Js.jsstring :=
  Js.or_default (get sp (Js.str "description")) [].
Definition initialValue (sp : URLSearchParams) : Js.jsstring :=
  Js.or_default (get sp (Js.str "value")) [].
Definition initialStatus (sp : URLSearchParams) : Js.jsstring :=
  Js.or_default (get sp (Js.str "status")) (Js.str "ACTIVE").

(** The component's [useState] cells. *)
Record State := {
  title : Js.jsstring;
  description : Js.jsstring;
  value : Js.jsstring;
  status : Js.jsstring;
  error : option Js.jsstring;
  saving : bool
}.

(** The cells when the page is first rendered. *)
Definition mount (sp : URLSearchParams) : State :=
  {| title := initialTitle sp; description := initialDescription sp;
     value := initialValue sp; status := initialStatus sp;
     error := None; saving := false |}.

(** [e.preventDefault()], the request [apiClient.patch(url, { addOnId,
    title, description, value, status })], and
    [setTimeout(() => router.replace(path), ms)]. *)
Inductive Effect :=
| PreventDefault
| ApiPatch (url addOnId title description : Js.jsstring) (value : Js.number)
    (status : Js.jsstring)
| SetTimeout (ms : Z) (replace : Js.jsstring).

Definition setError (e : option Js.jsstring) : Js.M State Effect unit :=
  Js.modify (λ st, {| title := title st; description := description st;
                      value := value st; status := status st;
                      error := e; saving := saving st |}).

Definition setSaving (b : bool) : Js.M State Effect unit :=
  Js.modify (λ st, {| title := title st; description := description st;
                      value := value st; status := status st;
                      error := error st; saving := b |}).

(** How a call of [submit] ends: its promise is fulfilled, or the
    [catch] block throws a [TypeError] and the promise is rejected. *)
Inductive Completion :=
| Fulfilled
| ThrewTypeError.

Section Handlers.

Variable Number : Js.jsstring → Js.number.
Variable respond : Effect → Js.Response.

Definition apiClient_patch (url addOnId title description : Js.jsstring)
    (value : Js.number) (status : Js.jsstring)
    : Js.M State Effect Js.Response :=
  Js.emit (ApiPatch url addOnId title description value status);;
  mret (respond (ApiPatch url addOnId title description value status)).

(** [submit], for the query [sp] and the cells [st] of the render the
    handler belongs to. The [catch] block reads [err.message] without
    [?.]: on a rejection with [undefined] or [null] it throws before
    [setError] is called; the [finally] block still runs. *)
Definition submit (sp : URLSearchParams) (st : State)
    : Js.M State Effect Completion :=
  Js.emit PreventDefault;;
  setError None;;
  if Js.falsy (id sp) then
    setError (Some (Js.str "INVALID_ADDON_ID"));; mret Fulfilled else
  let valueNum := Number (value st) in
  if negb (Js.isFinite valueNum) || Js.lt valueNum Js.zero then
    setError (Some (Js.str "VALUE_MUST_BE_NON_NEGATIVE_NUMBER"));;
    mret Fulfilled else
  setSaving true;;
  r ← apiClient_patch (Js.str "/api/addons/edit") (id sp) (title st)
        (description st) valueNum (status st);
  completion ←
    match r with
    | Js.Resolved =>
        Js.emit (SetTimeout 1000 (Js.str "/addons"));; mret Fulfilled
    | Js.Rejected message =>
        setError (Some (Js.or_default message (Js.str "UPDATE_FAILED")));;
        mret Fulfilled
    | Js.RejectedNullish => mret ThrewTypeError
    end;
  setSaving false;;
  mret completion.

(** Submitting the form shown in state [st]. *)
Definition submit_form (sp : URLSearchParams) (st : State)
    : State * list Effect :=
  Js.run (submit sp st) st.

End Handlers.

Definition hasChanges (sp : URLSearchParams) (st : State) : bool :=
  Js.strict_neq (title st) (initialTitle sp)
  || Js.strict_neq (description st) (initialDescription sp)
  || Js.strict_neq (value st) (initialValue sp)
  || Js.strict_neq (status st) (initialStatus sp).

(** [disabled={saving || !hasChanges}] of the submit button. *)
Definition submit_disabled (sp : URLSearchParams) (st : State) : bool :=
  saving st || negb (hasChanges sp st).

End EditAddonPage.

(** A stand-in for the engine's [Number] on the strings of the worked
    examples below: ["5"] converts to [5 = 0x1.4p+2], the empty string to
    [0], and the other strings it is asked about there do not convert. *)
Definition Number_sample (s : Js.jsstring) : Js.number :=
  if bool_decide (s = Js.str "5") then Js.binary64 0x14000000000000 (-50)
  else if bool_decide (s = []) then Js.zero
  else Js.NaN.

(** What the specification means by a case-insensitive substring match:
    [s] has a factor of the length of [pat] that agrees with [pat] letter
    by letter, where an ASCII letter agrees with itself in either case. *)
Module SubstringSpec.

Definition same_letter (a b : N) : Prop :=
  (a = b ∨ (65 ≤ a ≤ 90 ∧ b = a + 32) ∨ (65 ≤ b ≤ 90 ∧ a = b + 32))%N.

Definition contains_ignoring_case (pat s : Js.jsstring) : Prop :=
  ∃ pre mid post, s = pre ++ mid ++ post ∧ Forall2 same_letter pat mid.

End SubstringSpec.

(** A list of integers is contiguous when each element is its
    predecessor plus one. *)
Definition contiguous (l : list Z) : Prop :=
  ∀ (i : nat) (x y : Z), l !! i = Some x → l !! S i = Some y → y = x + 1.

Definition strictly_increasing (l : list Z) : Prop :=
  ∀ (i j : nat) (x y : Z),
    (i < j)%nat → l !! i = Some x → l !! j = Some y → x < y.

(** ** Navigation bars *)

(** The [<nav>] that the [Pagination] components return: the addons
    pages ([src/unnamed/part_000], lines 302-377 and 693-758) and the
    workspace page ([src/unnamed/part_001], lines 195-220). *)
Module PaginationNav.

Inductive Item :=
| PrevButton (target : Z) (disabled : bool)
| PageButton (label : Z) (current : bool)
| Ellipsis
| NextButton (target : Z) (disabled : bool).

(** [pages[0] > k]; on an empty array [undefined > k] is false. *)
Definition first_gt (pages : list Z) (k : Z) : bool :=
  match pages !! 0%nat with
  | Some p => k <? p
  | None => false
  end.

(** [pages[pages.length - 1] < k]; false on an empty array. *)
Definition last_lt (pages : list Z) (k : Z) : bool :=
  match last pages with
  | Some p => p <? k
  | None => false
  end.

(** The children of [<nav>] in the addons components, in order. *)
Definition addons_items (pages : list Z) (currentPage totalPages prev next : Z)
    : list Item :=
  [PrevButton prev (currentPage =? 1)]
  ++ (if first_gt pages 1
      then PageButton 1 false :: (if first_gt pages 2 then [Ellipsis] else [])
      else [])
  ++ ((λ p, PageButton p (p =? currentPage)) <$> pages)
  ++ (if last_lt pages totalPages
      then (if last_lt pages (Js.int_sub totalPages 1) then [Ellipsis]
            else [])
           ++ [PageButton totalPages false]
      else [])
  ++ [NextButton next (currentPage =? totalPages)].

Definition addons_nav (currentPage totalPages : Z) : list Item :=
  addons_items (AddonsPage.pages currentPage totalPages)
    currentPage totalPages
    (AddonsPage.prev currentPage) (AddonsPage.next currentPage totalPages).

Definition addons_client_nav (pagination : AddonsPageClient.Pagination)
    : list Item :=
  let currentPage := AddonsPageClient.currentPage pagination in
  let totalPages := AddonsPageClient.totalPages pagination in
  addons_items (AddonsPageClient.pages pagination) currentPage totalPages
    (Z.max 1 (Js.int_sub currentPage 1))
    (Z.min totalPages (Js.int_add currentPage 1)).

(** The workspace [<nav>]: [Prev], the window, [Next]. *)
Definition workspace_nav (currentPage totalPages : Z) : list Item :=
  let prevPage := Z.max 1 (Js.int_sub currentPage 1) in
  let nextPage := Z.min totalPages (Js.int_add currentPage 1) in
  [PrevButton prevPage (currentPage =? 1)]
  ++ ((λ p, PageButton p (p =? currentPage))
        <$> WorkspacePage.pages currentPage totalPages)
  ++ [NextButton nextPage (currentPage =? totalPages)].

(** The page numbers on the numbered buttons, from left to right. *)
Definition labels (items : list Item) : list Z :=
  omap (λ item, match item with PageButton p _ => Some p | _ => None end)
    items.

(** The numbered buttons drawn as the current page. *)
Definition highlighted (items : list Item) : list Z :=
  omap (λ item, match item with PageButton p true => Some p | _ => None end)
    items.

End PaginationNav.

(** ** Query strings *)

(** [URLSearchParams.set]: the first pair under [name] takes [value] and
    the later ones are removed; without such a pair one is appended. *)
Module Url.

Definition remove (name : Js.jsstring)
    (sp : list (Js.jsstring * Js.jsstring))
    : list (Js.jsstring * Js.jsstring) :=
  filter (λ kv, kv.1 ≠ name) sp.

Fixpoint set (sp : EditAddonPage.URLSearchParams) (name value : Js.jsstring)
    : EditAddonPage.URLSearchParams :=
  match sp with
  | [] => [(name, value)]
  | (k, v) :: sp' =>
      if bool_decide (k = name) then (name, value) :: remove name sp'
      else (k, v) :: set sp' name value
  end.

End Url.

(** ** Addons list *)

(** [AddonsPageInner] / [AddonsPage] and [AddonCard] of
    [src/unnamed/part_000]. A query string is identified with its list of
    pairs: [new URLSearchParams(sp.toString())] is a copy of [sp], and
    [router.replace("?" + params.toString())] makes [params] the query
    of the next render. *)
Module AddonsList.

Record Addon := {
  _id : Js.jsstring;
  title : Js.jsstring;
  description : Js.jsstring;
  value : Js.number;
  status : Js.jsstring;
  property_id : Js.jsstring;
  createdAt : Js.jsstring;
  updatedAt : Js.jsstring
}.

(** The literals [1] and [12]. *)
Definition lit_1 : Js.number := Js.binary64 0x10000000000000 (-52).
Definition lit_12 : Js.number := Js.binary64 0x18000000000000 (-49).

Record State := {
  addons : list Addon;
  pagination : option AddonsPageClient.Pagination;
  loading : bool;
  err : option Js.jsstring
}.

Inductive Effect :=
| ApiGet (url : Js.jsstring).

(** The awaited [apiClient.get]: the body's [data.addons] and
    [data.pagination], or a rejection. *)
Inductive GetResult :=
| GetResolved (addons : list Addon) (pagination : AddonsPageClient.Pagination)
| GetRejected (message : option Js.jsstring).

Definition setAddons (a : list Addon) : Js.M State Effect unit :=
  Js.modify (λ st, {| addons := a; pagination := pagination st;
                      loading := loading st; err := err st |}).

Definition setPagination (p : option AddonsPageClient.Pagination)
    : Js.M State Effect unit :=
  Js.modify (λ st, {| addons := addons st; pagination := p;
                      loading := loading st; err := err st |}).

Definition setLoading (b : bool) : Js.M State Effect unit :=
  Js.modify (λ st, {| addons := addons st; pagination := pagination st;
                      loading := b; err := err st |}).

Definition setErr (e : option Js.jsstring) : Js.M State Effect unit :=
  Js.modify (λ st, {| addons := addons st; pagination := pagination st;
                      loading := loading st; err := e |}).

Section Page.

Variable Number : Js.jsstring → Js.number.
Variable String : Js.number → Js.jsstring.
Variable respond : Effect → GetResult.

(** [Number(sp.get("page") ?? 1)], kept when finite and positive. *)
Definition page (sp : EditAddonPage.URLSearchParams) : Js.number :=
  let n := match EditAddonPage.get sp (Js.str "page") with
           | Some s => Number s
           | None => lit_1
           end in
  if Js.isFinite n && Js.lt Js.zero n then n else lit_1.

Definition limit (sp : EditAddonPage.URLSearchParams) : Js.number :=
  let n := match EditAddonPage.get sp (Js.str "limit") with
           | Some s => Number s
           | None => lit_12
           end in
  if Js.isFinite n && Js.lt Js.zero n then n else lit_12.

Definition fetch_url (sp : EditAddonPage.URLSearchParams) : Js.jsstring :=
  Js.str "/api/addons/fetch?page=" ++ String (page sp)
  ++ Js.str "&limit=" ++ String (limit sp).

Definition fetchData (sp : EditAddonPage.URLSearchParams)
    : Js.M State Effect unit :=
  setLoading true;;
  setErr None;;
  Js.emit (ApiGet (fetch_url sp));;
  match respond (ApiGet (fetch_url sp)) with
  | GetResolved a p => setAddons a;; setPagination (Some p)
  | GetRejected message =>
      setErr (Some (Js.or_default message (Js.str "Failed to load add-ons")))
  end;;
  setLoading false.

(** The query that [goToPage(p)] and [onChangeLimit(newLimit)] navigate
    to. *)
Definition goToPage (sp : EditAddonPage.URLSearchParams) (p : Js.number)
    : EditAddonPage.URLSearchParams :=
  Url.set sp (Js.str "page") (String p).

Definition onChangeLimit (sp : EditAddonPage.URLSearchParams)
    (newLimit : Js.number) : EditAddonPage.URLSearchParams :=
  Url.set (Url.set sp (Js.str "limit") (String newLimit))
    (Js.str "page") (Js.str "1").

(** The query of the [EDIT] link of [AddonCard]: lines 257-266 carry the
    status, lines 652-657 do not. *)
Definition edit_query (addon : Addon) : EditAddonPage.URLSearchParams :=
  [(Js.str "id", _id addon); (Js.str "title", title addon);
   (Js.str "description", description addon);
   (Js.str "value", String (value addon));
   (Js.str "status", status addon)].

Definition edit_query_client (addon : Addon)
    : EditAddonPage.URLSearchParams :=
  [(Js.str "id", _id addon); (Js.str "title", title addon);
   (Js.str "description", description addon);
   (Js.str "value", String (value addon))].

End Page.

(** The blocks below the header that a render shows. *)
Inductive Panel :=
| GridSkeleton
| ErrorPanel (message : Js.jsstring)
| EmptyPanel
| Grid (cards : list Addon) (nav : option (list PaginationNav.Item)).

Definition render (st : State) : list Panel :=
  let err_ := Js.or_default (err st) [] in
  (if loading st then [GridSkeleton] else [])
  ++ (if negb (Js.falsy err_) && negb (loading st)
      then [ErrorPanel err_] else [])
  ++ (if negb (loading st) && Js.falsy err_
         && bool_decide (length (addons st) = 0%nat)
      then [EmptyPanel] else [])
  ++ (if negb (loading st) && Js.falsy err_
         && bool_decide (0 < length (addons st))%nat
      then [Grid (addons st)
              match pagination st with
              | Some p =>
                  if 1 <? AddonsPageClient.totalPages p
                  then Some (PaginationNav.addons_nav
                               (AddonsPageClient.currentPage p)
                               (AddonsPageClient.totalPages p))
                  else None
              | None => None
              end]
      else []).

End AddonsList.

(** ** Workspace page *)

(** [fetchProperties] and [WorkspacePage] of [src/unnamed/part_001],
    lines 44-143. *)
Module Workspace.

Record PageSearchParams := {
  page : option Js.jsstring;
  limit : option Js.jsstring
}.

Record Property := {
  _id : Js.jsstring;
  name : Js.jsstring;
  description : option Js.jsstring;
  usage_limits : option Z;
  usage_count : option Z;
  status : option Js.jsstring;
  createdAt : option Js.jsstring;
  updatedAt : option Js.jsstring
}.

(** [ApiSuccess["data"]]. *)
Record Data := {
  properties : list Property;
  pagination : AddonsPageClient.Pagination
}.

(** The literals [1], [10] and [100]. *)
Definition lit_1 : Js.number := Js.binary64 0x10000000000000 (-52).
Definition lit_10 : Js.number := Js.binary64 0x14000000000000 (-49).
Definition lit_100 : Js.number := Js.binary64 0x19000000000000 (-46).

Definition API_URL : Js.jsstring :=
  Js.str "http://localhost:8850/api/property/all".

(** What [res.json()] gives: it rejects, or parses to [null], or to a
    value whose [status] and [data] properties may be missing (a value
    that is not an object has neither). *)
Inductive Json :=
| JsonRejected (reason : Js.jsstring)
| JsonNull
| JsonValue (status : option Js.jsstring) (data : option Data).

(** The [Response] of [fetch]; [text] is [None] when [res.text()]
    rejects. *)
Record Response := {
  ok : bool;
  res_status : Z;
  text : option Js.jsstring;
  json : Json
}.

Inductive FetchResult :=
| FetchRejected (message : option Js.jsstring)
| FetchResolved (res : Response).

(** [setTimeout(() => controller.abort(), ms)], the POST request with
    the body [{ page, limit }], and [clearTimeout]. *)
Inductive Effect :=
| SetAbortTimeout (ms : Z)
| Fetch (url : Js.jsstring) (page limit : Js.number)
| ClearTimeout.

(** How the call ends: it returns the data, throws one of its own
    [Error]s, lets the rejection of [res.json()] through, or fails with
    the [TypeError] of reading [status] of [null]. *)
Inductive Outcome (A : Type) :=
| Returned (a : A)
| ThrewError (message : Js.jsstring)
| ThrewRejection (reason : Js.jsstring)
| ThrewTypeError.

Arguments Returned {A} a.
Arguments ThrewError {A} message.
Arguments ThrewRejection {A} reason.
Arguments ThrewTypeError {A}.

(** What the page shows once the data is there. *)
Inductive Listing :=
| NoProperties
| Properties (items : list Property).

Record Page := {
  listing : Listing;
  nav : list PaginationNav.Item
}.

Section Fetch.

Variable Number : Js.jsstring → Js.number.
(** [`${res.status}`] *)
Variable String : Z → Js.jsstring.
Variable respond : Effect → FetchResult.

Definition fetchProperties (page limit : Js.number)
    : Js.M unit Effect (Outcome Data) :=
  Js.emit (SetAbortTimeout 15000);;
  Js.emit (Fetch API_URL page limit);;
  match respond (Fetch API_URL page limit) with
  | FetchRejected message =>
      mret (ThrewError (Js.str "Network error: "
                        ++ Js.or_default message (Js.str "unknown")))
  | FetchResolved res =>
      Js.emit ClearTimeout;;
      if negb (ok res) then
        let text := Js.or_default (text res) [] in
        mret (ThrewError
                (Js.str "API " ++ String (res_status res) ++ Js.str ": "
                 ++ Js.or_default (Some text)
                      (Js.str "failed to load properties")))
      else
        match json res with
        | JsonRejected reason => mret (ThrewRejection reason)
        | JsonNull => mret ThrewTypeError
        | JsonValue status data =>
            match data with
            | Some d =>
                if Js.strict_neq (Js.or_default status []) (Js.str "SUCCESS")
                then mret (ThrewError (Js.str "Unexpected API shape."))
                else mret (Returned d)
            | None => mret (ThrewError (Js.str "Unexpected API shape."))
            end
        end
  end.

Definition safePage (sp : PageSearchParams) : Js.number :=
  let pageNum := match page sp with
                 | Some s => Number s
                 | None => lit_1
                 end in
  if Js.isFinite pageNum && Js.lt Js.zero pageNum then pageNum else lit_1.

Definition safeLimit (sp : PageSearchParams) : Js.number :=
  let limitNum := match limit sp with
                  | Some s => Number s
                  | None => lit_10
                  end in
  if Js.isFinite limitNum && Js.lt Js.zero limitNum
     && Js.le limitNum lit_100
  then limitNum else lit_10.

Definition WorkspacePage (sp : PageSearchParams)
    : Js.M unit Effect (Outcome Page) :=
  r ← fetchProperties (safePage sp) (safeLimit sp);
  match r with
  | Returned d =>
      mret (Returned
        {| listing := if bool_decide (length (properties d) = 0%nat)
                      then NoProperties else Properties (properties d);
           nav := PaginationNav.workspace_nav
                    (AddonsPageClient.currentPage (pagination d))
                    (AddonsPageClient.totalPages (pagination d)) |})
  | ThrewError message => mret (ThrewError message)
  | ThrewRejection reason => mret (ThrewRejection reason)
  | ThrewTypeError => mret ThrewTypeError
  end.

End Fetch.

(** The result and the trace of a call. *)
Definition call {A} (m : Js.M unit Effect A) : A * list Effect :=
  let '(a, _, tr) := m tt [] in (a, tr).

End Workspace.

(** ** Create form: field edits *)

(** [onChange] of [src/app/(root)/addons/create/page.tsx], lines 26-29. *)
Module CreateAddonsFields.

(** [keyof FormState] *)
Inductive Key := title | description | value.

Definition field (key : Key) (f : CreateAddons.FormState) : Js.jsstring :=
  match key with
  | title => CreateAddons.title f
  | description => CreateAddons.description f
  | value => CreateAddons.value f
  end.

(** [{ ...f, [key]: v }] *)
Definition with_field (key : Key) (v : Js.jsstring)
    (f : CreateAddons.FormState) : CreateAddons.FormState :=
  match key with
  | title =>
      {| CreateAddons.title := v;
         CreateAddons.description := CreateAddons.description f;
         CreateAddons.value := CreateAddons.value f |}
  | description =>
      {| CreateAddons.title := CreateAddons.title f;
         CreateAddons.description := v;
         CreateAddons.value := CreateAddons.value f |}
  | value =>
      {| CreateAddons.title := CreateAddons.title f;
         CreateAddons.description := CreateAddons.description f;
         CreateAddons.value := v |}
  end.

Definition setForm (g : CreateAddons.FormState → CreateAddons.FormState)
    : Js.M CreateAddons.State CreateAddons.Effect unit :=
  Js.modify (λ st, {| CreateAddons.form := g (CreateAddons.form st);
                      CreateAddons.error := CreateAddons.error st;
                      CreateAddons.success := CreateAddons.success st;
                      CreateAddons.submitting := CreateAddons.submitting st |}).

Definition onChange (key : Key) (v : Js.jsstring)
    : Js.M CreateAddons.State CreateAddons.Effect unit :=
  CreateAddons.setError None;;
  setForm (λ f, with_field key v f).

End CreateAddonsFields.

(** ** Status panel: the container *)

(** [SecurityStatusContainer] of [src/app/(auth)/layout.tsx], lines
    112-160: the effect's [run] and what the component returns. *)
Module StatusPanel.

Record State := {
  statuses : option (list SecurityStatusContainer.SecurityStatusType);
  error : option Js.jsstring;
  loading : bool
}.

(** [useState(null)], [useState(null)], [useState(true)]. *)
Definition initial : State :=
  {| statuses := None; error := None; loading := true |}.

Inductive Effect :=
| ApiGet (url : Js.jsstring).

Inductive GetResult :=
| GetResolved (data : SecurityStatusContainer.Api.Data)
| GetRejected (message : option Js.jsstring).

Definition setStatuses
    (s : option (list SecurityStatusContainer.SecurityStatusType))
    : Js.M State Effect unit :=
  Js.modify (λ st, {| statuses := s; error := error st;
                      loading := loading st |}).

Definition setError (e : option Js.jsstring) : Js.M State Effect unit :=
  Js.modify (λ st, {| statuses := statuses st; error := e;
                      loading := loading st |}).

Definition setLoading (b : bool) : Js.M State Effect unit :=
  Js.modify (λ st, {| statuses := statuses st; error := error st;
                      loading := b |}).

Section Run.

Variable parseFloat : Js.jsstring → Js.number.
Variable String : Js.number → Js.jsstring.
Variable toFixed0 : Js.number → Js.jsstring.
Variable respond : Effect → GetResult.

(** [run]; [dead] is the flag as the awaited request settles, set by
    the clean-up of the effect when the component has been torn down. *)
Definition run (dead : bool) : Js.M State Effect unit :=
  setLoading true;;
  setError None;;
  Js.emit (ApiGet (Js.str "/status"));;
  match respond (ApiGet (Js.str "/status")) with
  | GetResolved data =>
      if dead then mret tt
      else setStatuses
             (Some (SecurityStatusContainer.toStatuses
                      parseFloat String toFixed0 data))
  | GetRejected message =>
      if dead then mret tt
      else setError
             (Some (Js.or_default message (Js.str "Failed to fetch status")))
  end;;
  if negb dead then setLoading false else mret tt.

End Run.

(** What the component returns. *)
Inductive View :=
| Fetching
| ErrorBox (message : Js.jsstring)
| Nothing
| Panel (statuses : list SecurityStatusContainer.SecurityStatusType).

Definition view (st : State) : View :=
  if loading st then Fetching
  else if negb (Js.falsy (Js.or_default (error st) [])) then
    ErrorBox (Js.or_default (error st) [])
  else match statuses st with
       | None => Nothing
       | Some s => Panel s
       end.

End StatusPanel.

(** Stand-ins for the engine's [Number] on strings and [String] on
    numbers, defined on the decimal numerals [1], [5] and [12] of the
    worked examples, where they agree with the engine. *)
Definition Number_small (s : Js.jsstring) : Js.number :=
  if bool_decide (s = Js.str "1") then Js.binary64 0x10000000000000 (-52)
  else if bool_decide (s = Js.str "5") then Js.binary64 0x14000000000000 (-50)
  else if bool_decide (s = Js.str "12") then Js.binary64 0x18000000000000 (-49)
  else Js.NaN.

Definition String_small (v : Js.number) : Js.jsstring :=
  match v with
  | S754_finite false 0x10000000000000 (-52) => Js.str "1"
  | S754_finite false 0x14000000000000 (-50) => Js.str "5"
  | S754_finite false 0x18000000000000 (-49) => Js.str "12"
  | _ => Js.str "NaN"
  end.

(** The requests among the effects of a form handler. *)
Module Requests.

Definition is_post (e : CreateAddons.Effect) : bool :=
  match e with
  | CreateAddons.ApiPost _ _ _ _ => true
  | _ => false
  end.

Definition is_patch (e : EditAddonPage.Effect) : bool :=
  match e with
  | EditAddonPage.ApiPatch _ _ _ _ _ _ => true
  | _ => false
  end.

Definition is_redirect (e : CreateAddons.Effect) : bool :=
  match e with
  | CreateAddons.SetTimeout _ _ => true
  | _ => false
  end.

End Requests.

(* ===================================================================== *)
(** * Part II: theorems                                                   *)
(* ===================================================================== *)

(** ** Pagination windows *)

Section Windows.

(** Up to [2^53] in magnitude an integer is a binary64 value: nothing is
    rounded. *)
Lemma round53_exact (z : Z) :
  -9007199254740992 ≤ z ≤ 9007199254740992 → Js.round53 z = z.
Proof.
  intros H. unfold Js.round53. change (2 ^ 53) with 9007199254740992.
  destruct (Z.leb_spec (Z.abs z) 9007199254740992); [done|lia].
Qed.

(** Rounding never takes a number below an integer of at most [2^53]
    that it has reached. *)
Lemma round53_ge (k z : Z) :
  0 ≤ k ≤ 9007199254740992 → k ≤ z → k ≤ Js.round53 z.
Proof.
  intros Hk Hz. unfold Js.round53. change (2 ^ 53) with 9007199254740992.
  destruct (Z.leb_spec (Z.abs z) 9007199254740992) as [H|H]; [lia|].
  assert (Hpos : 9007199254740992 < z) by lia.
  cbv zeta. rewrite Z.abs_eq, Z.sgn_pos, Z.mul_1_l by lia.
  assert (Hlog : 53 ≤ Z.log2 z).
  { change 53 with (Z.log2 9007199254740992). apply Z.log2_le_mono. lia. }
  remember (Z.log2 z - 52) as e eqn:Ee.
  assert (Hq : 2 ^ 52 ≤ z / 2 ^ e).
  { apply Z.div_le_lower_bound; [apply Z.pow_pos_nonneg; lia|].
    rewrite <- Z.pow_add_r by lia.
    replace (e + 52) with (Z.log2 z) by lia.
    apply Z.log2_spec. lia. }
  assert (Hp : 2 ^ 1 ≤ 2 ^ e) by (apply Z.pow_le_mono_r; lia).
  change (2 ^ 52) with 4503599627370496 in Hq. change (2 ^ 1) with 2 in Hp.
  remember (z / 2 ^ e) as q eqn:Eq. remember (2 ^ e) as p eqn:Ep.
  destruct (_ <? _); [nia|]. destruct (_ <? _); [nia|].
  destruct (Z.even q); nia.
Qed.

Lemma int_add_exact (x y : Z) :
  -9007199254740992 ≤ x + y ≤ 9007199254740992 → Js.int_add x y = x + y.
Proof. apply round53_exact. Qed.

Lemma int_sub_exact (x y : Z) :
  -9007199254740992 ≤ x - y ≤ 9007199254740992 → Js.int_sub x y = x - y.
Proof. apply round53_exact. Qed.

(** [Js.int_add] and [Js.int_sub] against the Standard Library's binary64
    addition and subtraction, on the sums and differences that the window
    computation meets around [2^53] and on small ones. *)
Example int_add_is_binary64_addition :
  Forall (λ xy : Z * Z,
            Js.to_int (SFadd 53 1024 (Js.of_int xy.1) (Js.of_int xy.2)) =
              Some (Js.int_add xy.1 xy.2) ∧
            Js.to_int (SFsub 53 1024 (Js.of_int xy.1) (Js.of_int xy.2)) =
              Some (Js.int_sub xy.1 xy.2))
    [(3, 4); (3, 10); (10, 2); (7, 7);
     (9007199254740990, 2); (9007199254740988, 5); (9007199254740992, 1);
     (9007199254740991, 5); (9007199254740986, 1);
     (9007199254740991, 9007199254740987);
     (9007199254740992, 2); (9007199254740990, 5); (9007199254740996, 1);
     (9007199254740994, 5); (9007199254740989, 1);
     (9007199254740994, 9007199254740990);
     (9007199254740990, 3); (9007199254740990, 4);
     (18014398509481988, 2); (18014398509481984, 6);
     (1152921504606846976, 5); (1152921504606846976, 1)].
Proof. repeat (constructor; [by vm_compute|]). constructor. Qed.

(** The provisional end of a window, [start + windowSize - 1], passes
    [2^53] for the last safe page numbers and is rounded there, but it
    stays at or above every safe [totalPages]. *)
Lemma window_end (s tp : Z) :
  1 ≤ s ≤ Js.MAX_SAFE_INTEGER - 2 → tp ≤ Js.MAX_SAFE_INTEGER →
  Z.min tp (Js.int_sub (Js.int_add s 5) 1) = Z.min tp (s + 4).
Proof.
  unfold Js.MAX_SAFE_INTEGER. intros Hs Htp.
  destruct (decide (s ≤ 9007199254740987)).
  - rewrite int_add_exact, int_sub_exact by lia. f_equal. lia.
  - assert (s = 9007199254740988 ∨ s = 9007199254740989) as [-> | ->] by lia.
    + replace (Js.int_sub (Js.int_add 9007199254740988 5) 1)
        with 9007199254740991 by (by vm_compute).
      lia.
    + replace (Js.int_sub (Js.int_add 9007199254740989 5) 1)
        with 9007199254740992 by (by vm_compute).
      lia.
Qed.

Lemma Array_from_offset (start len : Z) :
  Js.Array_from len (λ i, start + i) = seqZ start len.
Proof.
  unfold Js.Array_from.
  change (λ i, start + i) with (Z.add start).
  rewrite fmap_add_seqZ. by rewrite Z.add_0_r.
Qed.

(** The entries [start + i] of a window that ends by [2^53]. *)
Lemma Array_from_int_add (start len : Z) :
  0 ≤ start → start + len ≤ 9007199254740993 →
  Js.Array_from len (λ i, Js.int_add start i) = seqZ start len.
Proof.
  intros Hs Hl. rewrite <- Array_from_offset. unfold Js.Array_from.
  apply list_fmap_ext. intros i x Hx.
  apply lookup_seqZ in Hx as [-> Hi]. apply int_add_exact. lia.
Qed.

Lemma interval_length (a b : Z) :
  length (WindowSpec.interval a b) = Z.to_nat (b - a + 1).
Proof. apply length_seqZ. Qed.

Lemma interval_elem (a b x : Z) :
  x ∈ WindowSpec.interval a b ↔ a ≤ x ≤ b.
Proof. unfold WindowSpec.interval. rewrite elem_of_seqZ. lia. Qed.

Lemma interval_contiguous (a b : Z) : contiguous (WindowSpec.interval a b).
Proof.
  intros i x y Hx Hy. unfold WindowSpec.interval in *.
  apply lookup_seqZ in Hx as [-> _]. apply lookup_seqZ in Hy as [-> _]. lia.
Qed.

Lemma interval_increasing (a b : Z) :
  strictly_increasing (WindowSpec.interval a b).
Proof.
  intros i j x y Hij Hx Hy. unfold WindowSpec.interval in *.
  apply lookup_seqZ in Hx as [-> _]. apply lookup_seqZ in Hy as [-> _]. lia.
Qed.

(** With a safe number of pages the addons window is the interval
    between its two bounds, wherever the current page lies: a current
    page beyond the safe integers is clamped to [totalPages] before
    anything is added to it. *)
Lemma addons_pages_interval (cp tp : Z) :
  1 ≤ cp → 1 ≤ tp ≤ Js.MAX_SAFE_INTEGER →
  AddonsPage.pages cp tp =
  WindowSpec.interval
    (Z.max 1 (Z.min (Z.max 1 (cp - 2)) (Z.min tp (Z.max 1 (cp - 2) + 4) - 4)))
    (Z.min tp (Z.max 1 (cp - 2) + 4)).
Proof.
  intros Hcp Htp. unfold AddonsPage.pages, AddonsPage.windowSize.
  change (5 / 2) with 2. cbv zeta.
  destruct (decide (cp ≤ Js.MAX_SAFE_INTEGER)) as [Hsafe|Hbig].
  - rewrite (int_sub_exact cp 2) by (unfold Js.MAX_SAFE_INTEGER in *; lia).
    remember (Z.max 1 (cp - 2)) as s0 eqn:Es0.
    rewrite (window_end s0 tp) by (unfold Js.MAX_SAFE_INTEGER in *; lia).
    unfold Js.MAX_SAFE_INTEGER in *.
    remember (Z.min tp (s0 + 4)) as e eqn:Ee.
    rewrite (int_sub_exact e 5), (int_add_exact (e - 5) 1) by lia.
    remember (Z.max 1 (Z.min s0 (e - 5 + 1))) as s eqn:Es.
    rewrite (int_sub_exact e s), (int_add_exact (e - s) 1) by lia.
    rewrite Array_from_int_add by lia.
    unfold WindowSpec.interval. f_equal; lia.
  - unfold Js.MAX_SAFE_INTEGER in *.
    assert (Ha : 9007199254740990 ≤ Js.int_sub cp 2)
      by (apply round53_ge; lia).
    remember (Js.int_sub cp 2) as a eqn:Ea. clear Ea.
    assert (Hb : 9007199254740992 ≤ Js.int_add (Z.max 1 a) 5)
      by (apply round53_ge; lia).
    remember (Js.int_add (Z.max 1 a) 5) as b eqn:Eb. clear Eb.
    assert (He : 9007199254740991 ≤ Js.int_sub b 1)
      by (apply round53_ge; lia).
    remember (Js.int_sub b 1) as e eqn:Ee. clear Ee.
    replace (Z.min tp e) with tp by lia.
    rewrite (int_sub_exact tp 5), (int_add_exact (tp - 5) 1) by lia.
    remember (Z.max 1 (Z.min (Z.max 1 a) (tp - 5 + 1))) as s eqn:Es.
    rewrite (int_sub_exact tp s), (int_add_exact (tp - s) 1) by lia.
    rewrite Array_from_int_add by lia.
    unfold WindowSpec.interval. f_equal; lia.
Qed.

Lemma addons_client_pages_eq (p : AddonsPageClient.Pagination) :
  AddonsPageClient.pages p =
  AddonsPage.pages (AddonsPageClient.currentPage p) (AddonsPageClient.totalPages p).
Proof. reflexivity. Qed.

Lemma workspace_pages_interval (cp tp : Z) :
  1 ≤ cp ≤ Js.MAX_SAFE_INTEGER → 1 ≤ tp ≤ Js.MAX_SAFE_INTEGER →
  WorkspacePage.pages cp tp =
  WindowSpec.interval (Z.max 1 (cp - 2)) (Z.min tp (Z.max 1 (cp - 2) + 4)).
Proof.
  intros Hcp Htp. unfold WorkspacePage.pages, WorkspacePage.windowSize.
  change (5 / 2) with 2. cbv zeta.
  rewrite (int_sub_exact cp 2) by (unfold Js.MAX_SAFE_INTEGER in *; lia).
  remember (Z.max 1 (cp - 2)) as s0 eqn:Es0.
  rewrite (window_end s0 tp) by (unfold Js.MAX_SAFE_INTEGER in *; lia).
  unfold Js.MAX_SAFE_INTEGER in *.
  remember (Z.min tp (s0 + 4)) as e eqn:Ee.
  rewrite (int_sub_exact e s0), (int_add_exact (e - s0) 1) by lia.
  destruct (decide (e < s0)).
  - unfold Js.Array_from, WindowSpec.interval. by rewrite !seqZ_nil by lia.
  - rewrite Array_from_int_add by lia. done.
Qed.

(** PREV and NEXT of a safe page number. *)
Lemma prev_exact (cp : Z) :
  1 ≤ cp ≤ Js.MAX_SAFE_INTEGER → Js.int_sub cp 1 = cp - 1.
Proof. unfold Js.MAX_SAFE_INTEGER. intros H. apply int_sub_exact. lia. Qed.

Lemma next_exact (cp : Z) :
  1 ≤ cp ≤ Js.MAX_SAFE_INTEGER → Js.int_add cp 1 = cp + 1.
Proof. unfold Js.MAX_SAFE_INTEGER. intros H. apply int_add_exact. lia. Qed.

(** On the addons page the window has [min 5 totalPages] entries. *)
Lemma addons_pages_length (cp tp : Z) :
  1 ≤ cp ≤ tp → tp ≤ Js.MAX_SAFE_INTEGER →
  length (AddonsPage.pages cp tp) = Z.to_nat (Z.min 5 tp).
Proof.
  intros H Htp. rewrite addons_pages_interval, interval_length by lia.
  f_equal. lia.
Qed.

(** On the addons page a short list is shown whole. *)
Lemma addons_pages_small (cp tp : Z) :
  tp ≤ 5 → 1 ≤ cp ≤ tp →
  AddonsPage.pages cp tp = WindowSpec.interval 1 tp.
Proof.
  intros Htp H.
  rewrite addons_pages_interval by (unfold Js.MAX_SAFE_INTEGER; lia).
  f_equal; lia.
Qed.

Lemma seqZ_five (a : Z) : seqZ a 5 = [a; a + 1; a + 2; a + 3; a + 4].
Proof.
  unfold seqZ. simpl.
  repeat (apply (f_equal2 cons); [lia|]). reflexivity.
Qed.

(** On the addons page an interior page sits in the middle of its window. *)
Lemma addons_pages_centered (cp tp : Z) :
  5 ≤ tp → 3 ≤ cp ≤ tp - 2 → tp ≤ Js.MAX_SAFE_INTEGER →
  AddonsPage.pages cp tp = [cp - 2; cp - 1; cp; cp + 1; cp + 2].
Proof.
  intros Htp H Hmax. rewrite addons_pages_interval by lia.
  unfold WindowSpec.interval.
  replace (Z.max 1 _) with (cp - 2) by lia.
  replace (Z.min tp _ - (cp - 2) + 1) with 5 by lia.
  rewrite seqZ_five.
  repeat (apply (f_equal2 cons); [lia|]). reflexivity.
Qed.

Lemma workspace_pages_centered (cp tp : Z) :
  5 ≤ tp → 3 ≤ cp ≤ tp - 2 → tp ≤ Js.MAX_SAFE_INTEGER →
  WorkspacePage.pages cp tp = [cp - 2; cp - 1; cp; cp + 1; cp + 2].
Proof.
  intros Htp H Hmax. rewrite workspace_pages_interval by lia.
  unfold WindowSpec.interval.
  replace (Z.max 1 _) with (cp - 2) by lia.
  replace (Z.min tp _ - (cp - 2) + 1) with 5 by lia.
  rewrite seqZ_five.
  repeat (apply (f_equal2 cons); [lia|]). reflexivity.
Qed.

(** Far beyond the safe integers the numbers lie so far apart that
    adding [windowSize] changes nothing: the workspace window on page
    [2^54 + 4] of [2^54] and the addons window on page [2^60] of [2^60]
    have one entry, and PREV of page [2^54] is page [2^54]. *)
Example pages_far_beyond_safe_integers :
  WorkspacePage.pages 18014398509481988 18014398509481984 =
    [18014398509481984] ∧
  AddonsPage.pages 1152921504606846976 1152921504606846976 =
    [1152921504606846976] ∧
  AddonsPage.prev 9007199254740994 = 9007199254740992 ∧
  AddonsPage.prev 18014398509481984 = 18014398509481984.
Proof. by vm_compute. Qed.

End Windows.

(** C1. For [1 <= currentPage <= totalPages], with [totalPages] a safe
    integer, the addons window has [min 5 totalPages] entries. The
    workspace window misses the second clamp of [start] that the addons
    windows perform: on the last of ten pages the addons window has its
    five entries, the workspace window only three. *)
Theorem workspace_window_short_on_last_page :
  (∀ currentPage totalPages, 1 ≤ currentPage ≤ totalPages →
     totalPages ≤ Js.MAX_SAFE_INTEGER →
     length (AddonsPage.pages currentPage totalPages) =
     Z.to_nat (Z.min 5 totalPages)) ∧
  AddonsPage.pages 10 10 = [6; 7; 8; 9; 10] ∧
  WorkspacePage.pages 10 10 = [8; 9; 10] ∧
  length (WorkspacePage.pages 10 10) ≠ Z.to_nat (Z.min 5 10).
Proof.
  split; [exact addons_pages_length|].
  vm_compute. repeat split; discriminate.
Qed.

(** C2 (amended). For every [currentPage >= 1] and every [totalPages
    >= 1] that is a safe integer (at most [2^53 - 1]), the addons window,
    in both copies of the component, is the sequence [[start..end]] of
    the specification's algorithm: [half = 2], [start0 = max 1
    (currentPage - half)], [end = min totalPages (start0 + 4)], [start =
    max 1 (min start0 (end - 4))]. *)
Theorem addons_pages_refine_computeWindow (currentPage totalPages : Z) :
  1 ≤ currentPage → 1 ≤ totalPages ≤ Js.MAX_SAFE_INTEGER →
  AddonsPage.pages currentPage totalPages =
    WindowSpec.computeWindow currentPage totalPages ∧
  ∀ p : AddonsPageClient.Pagination,
    AddonsPageClient.currentPage p = currentPage →
    AddonsPageClient.totalPages p = totalPages →
    AddonsPageClient.pages p = WindowSpec.computeWindow currentPage totalPages.
Proof.
  intros Hcp Htp.
  assert (E : AddonsPage.pages currentPage totalPages =
              WindowSpec.computeWindow currentPage totalPages)
    by by apply addons_pages_interval.
  split; [exact E|].
  intros p <- <-. by rewrite addons_client_pages_eq.
Qed.

Lemma addons_pages_refine_computeWindow_witness :
  AddonsPage.pages 9007199254740991 9007199254740991 =
    WindowSpec.computeWindow 9007199254740991 9007199254740991 ∧
  ∀ p : AddonsPageClient.Pagination,
    AddonsPageClient.currentPage p = 9007199254740991 →
    AddonsPageClient.totalPages p = 9007199254740991 →
    AddonsPageClient.pages p =
    WindowSpec.computeWindow 9007199254740991 9007199254740991.
Proof.
  apply (addons_pages_refine_computeWindow 9007199254740991 9007199254740991);
    unfold Js.MAX_SAFE_INTEGER; lia.
Defined.

(** C2, as first stated, fails from [totalPages = 2^53] on. On page
    [2^53 - 2] of [2^53] the specification's window is [[2^53 - 4 ..
    2^53]]; in the code [start + windowSize = 2^53 + 1] is no binary64
    value and rounds to [2^53], so [end] is [2^53 - 1] and the window is
    [[2^53 - 5 .. 2^53 - 1]]. On page [2^53] of [2^53 + 2] the entry
    [start + 3 = 2^53 + 1] rounds to [2^53], which the window then shows
    twice. *)
Lemma addons_pages_round_beyond_safe_integers :
  (1 ≤ 9007199254740990 ∧ 1 ≤ 9007199254740992) ∧
  AddonsPage.pages 9007199254740990 9007199254740992 =
    [9007199254740987; 9007199254740988; 9007199254740989;
     9007199254740990; 9007199254740991] ∧
  WindowSpec.computeWindow 9007199254740990 9007199254740992 =
    [9007199254740988; 9007199254740989; 9007199254740990;
     9007199254740991; 9007199254740992] ∧
  AddonsPage.pages 9007199254740990 9007199254740992 ≠
    WindowSpec.computeWindow 9007199254740990 9007199254740992 ∧
  AddonsPage.pages 9007199254740992 9007199254740994 =
    [9007199254740990; 9007199254740991; 9007199254740992;
     9007199254740992; 9007199254740994] ∧
  AddonsPage.pages 9007199254740992 9007199254740994 ≠
    WindowSpec.computeWindow 9007199254740992 9007199254740994.
Proof.
  split; [lia|]. vm_compute. repeat split; discriminate.
Qed.

(** C3. With at most five pages the addons window is [[1..totalPages]],
    but the workspace window starts at [currentPage - 2]: on page 4 of 5
    it is [[2..5]], and page 1 is not offered. *)
Theorem workspace_window_drops_first_page :
  (∀ currentPage totalPages,
     totalPages ≤ 5 → 1 ≤ currentPage ≤ totalPages →
     AddonsPage.pages currentPage totalPages = WindowSpec.interval 1 totalPages) ∧
  AddonsPage.pages 4 5 = [1; 2; 3; 4; 5] ∧
  WorkspacePage.pages 4 5 = [2; 3; 4; 5] ∧
  WorkspacePage.pages 4 5 ≠ WindowSpec.interval 1 5.
Proof.
  split; [exact addons_pages_small|].
  vm_compute. repeat split; discriminate.
Qed.

(** C9 (amended). With at least five pages, [3 <= currentPage <=
    totalPages - 2] and [totalPages] a safe integer (at most [2^53 - 1]),
    the addons window and the workspace window are both
    [[currentPage - 2 .. currentPage + 2]]: five entries, [currentPage]
    in the middle. *)
Theorem pages_centered (currentPage totalPages : Z) :
  5 ≤ totalPages → 3 ≤ currentPage ≤ totalPages - 2 →
  totalPages ≤ Js.MAX_SAFE_INTEGER →
  let window := [currentPage - 2; currentPage - 1; currentPage;
                 currentPage + 1; currentPage + 2] in
  AddonsPage.pages currentPage totalPages = window ∧
  WorkspacePage.pages currentPage totalPages = window ∧
  window = WindowSpec.interval (currentPage - 2) (currentPage + 2) ∧
  length window = 5%nat ∧ window !! 2%nat = Some currentPage.
Proof.
  intros Htp H Hmax window. repeat split.
  - by apply addons_pages_centered.
  - by apply workspace_pages_centered.
  - unfold WindowSpec.interval.
    replace (currentPage + 2 - (currentPage - 2) + 1) with 5 by lia.
    rewrite seqZ_five. subst window.
    repeat (apply (f_equal2 cons); [lia|]). reflexivity.
Qed.

Lemma pages_centered_witness :
  let window := [5 - 2; 5 - 1; 5; 5 + 1; 5 + 2] in
  AddonsPage.pages 5 9 = window ∧
  WorkspacePage.pages 5 9 = window ∧
  window = WindowSpec.interval (5 - 2) (5 + 2) ∧
  length window = 5%nat ∧ window !! 2%nat = Some 5.
Proof. apply (pages_centered 5 9); unfold Js.MAX_SAFE_INTEGER; lia. Defined.

(** C9, as first stated, fails from [totalPages = 2^53] on. Page
    [2^53 - 2] of [2^53] satisfies [totalPages >= 5] and [3 <=
    currentPage <= totalPages - 2], yet [end] is rounded down to
    [2^53 - 1]: the addons window is [[currentPage - 3 .. currentPage +
    1]] and the workspace window has the four entries [[currentPage - 2
    .. currentPage + 1]]. *)
Lemma pages_off_centre_beyond_safe_integers :
  5 ≤ 9007199254740992 ∧
  3 ≤ 9007199254740990 ≤ 9007199254740992 - 2 ∧
  AddonsPage.pages 9007199254740990 9007199254740992 =
    [9007199254740987; 9007199254740988; 9007199254740989;
     9007199254740990; 9007199254740991] ∧
  WorkspacePage.pages 9007199254740990 9007199254740992 =
    [9007199254740988; 9007199254740989; 9007199254740990;
     9007199254740991] ∧
  AddonsPage.pages 9007199254740990 9007199254740992 ≠
    [9007199254740990 - 2; 9007199254740990 - 1; 9007199254740990;
     9007199254740990 + 1; 9007199254740990 + 2] ∧
  WorkspacePage.pages 9007199254740990 9007199254740992 ≠
    [9007199254740990 - 2; 9007199254740990 - 1; 9007199254740990;
     9007199254740990 + 1; 9007199254740990 + 2].
Proof.
  split; [lia|]. split; [lia|].
  vm_compute. repeat split; discriminate.
Qed.

(** C10 (amended). For every [currentPage >= 1] and every [totalPages
    >= 1] that is a safe integer (at most [2^53 - 1]), also when
    [currentPage > totalPages], the addons window (both copies) is
    non-empty, contiguous, strictly increasing, and each entry lies in
    [[1, totalPages]]. *)
Theorem addons_pages_safe (currentPage totalPages : Z) :
  1 ≤ currentPage → 1 ≤ totalPages ≤ Js.MAX_SAFE_INTEGER →
  ∀ pages : list Z,
    (pages = AddonsPage.pages currentPage totalPages ∨
     ∃ p, AddonsPageClient.currentPage p = currentPage ∧
          AddonsPageClient.totalPages p = totalPages ∧
          pages = AddonsPageClient.pages p) →
    pages ≠ [] ∧ contiguous pages ∧ strictly_increasing pages ∧
    ∀ x, x ∈ pages → 1 ≤ x ≤ totalPages.
Proof.
  intros Hcp Htp pages Hpages.
  assert (E : pages = AddonsPage.pages currentPage totalPages).
  { destruct Hpages as [->|(p & <- & <- & ->)]; [done|].
    apply addons_client_pages_eq. }
  subst pages. rewrite addons_pages_interval by done.
  split; [|split; [|split]].
  - intros Hnil. apply (f_equal length) in Hnil.
    rewrite interval_length in Hnil. simpl in Hnil. lia.
  - apply interval_contiguous.
  - apply interval_increasing.
  - intros x Hx. apply interval_elem in Hx. lia.
Qed.

Lemma addons_pages_safe_witness :
  AddonsPage.pages 10 3 ≠ [] ∧ contiguous (AddonsPage.pages 10 3) ∧
  strictly_increasing (AddonsPage.pages 10 3) ∧
  ∀ x, x ∈ AddonsPage.pages 10 3 → 1 ≤ x ≤ 3.
Proof.
  apply (addons_pages_safe 10 3);
    [lia | unfold Js.MAX_SAFE_INTEGER; lia | by left].
Defined.

(** C10, as first stated, fails beyond the safe integers. On page
    [2^53] of [2^53 + 2] the third and the fourth entry of the addons
    window are both [2^53]: the window is neither strictly increasing
    nor contiguous. *)
Lemma addons_pages_repeat_beyond_safe_integers :
  1 ≤ 9007199254740992 ∧ 1 ≤ 9007199254740994 ∧
  AddonsPage.pages 9007199254740992 9007199254740994 !! 2%nat =
    Some 9007199254740992 ∧
  AddonsPage.pages 9007199254740992 9007199254740994 !! 3%nat =
    Some 9007199254740992 ∧
  ¬ strictly_increasing (AddonsPage.pages 9007199254740992 9007199254740994) ∧
  ¬ contiguous (AddonsPage.pages 9007199254740992 9007199254740994).
Proof.
  assert (E2 : AddonsPage.pages 9007199254740992 9007199254740994 !! 2%nat =
               Some 9007199254740992) by (by vm_compute).
  assert (E3 : AddonsPage.pages 9007199254740992 9007199254740994 !! 3%nat =
               Some 9007199254740992) by (by vm_compute).
  split; [lia|]. split; [lia|]. split; [exact E2|]. split; [exact E3|].
  split.
  - intros H. specialize (H 2%nat 3%nat _ _ ltac:(lia) E2 E3). lia.
  - intros H. specialize (H 2%nat _ _ E2 E3). lia.
Qed.


(** ** Status panel *)

Section Comparisons.

(** Two positive finite values compare by exponent, then by mantissa. *)
Lemma SFcompare_binary64 (m1 m2 : positive) (e1 e2 : Z) :
  SFcompare (Js.binary64 m1 e1) (Js.binary64 m2 e2) =
  Some match e1 ?= e2 with
       | Lt => Lt
       | Gt => Gt
       | Eq => (m1 ?= m2)%positive
       end.
Proof. reflexivity. Qed.

(** A positive finite threshold [mc * 2^ec]. *)
Variables (mc : positive) (ec : Z).

Lemma lt_binary64 (v : Js.number) :
  Js.lt v (Js.binary64 mc ec) = true ↔ Js.below mc ec v.
Proof.
  destruct v as [s|s| |s m e]; try destruct s;
    try (vm_compute; intuition congruence).
  simpl Js.below; simpl Js.at_least.
  change (S754_finite false m e) with (Js.binary64 m e).
  unfold Js.lt, SFltb. rewrite SFcompare_binary64.
  destruct (Z.compare_spec e ec); [|intuition (congruence || lia)..].
  destruct (Pos.compare_spec m mc); intuition (congruence || lia).
Qed.

Lemma ge_binary64 (v : Js.number) :
  Js.ge v (Js.binary64 mc ec) = true ↔ Js.at_least mc ec v.
Proof.
  destruct v as [s|s| |s m e]; try destruct s;
    try (vm_compute; intuition congruence).
  simpl Js.below; simpl Js.at_least.
  change (S754_finite false m e) with (Js.binary64 m e).
  unfold Js.ge, SFleb. rewrite SFcompare_binary64.
  destruct (Z.compare_spec ec e); [|intuition (congruence || lia)..].
  destruct (Pos.compare_spec mc m); intuition (congruence || lia).
Qed.

(** A value that is not below a threshold is at or above it, or is NaN. *)
Lemma not_below (v : Js.number) :
  ¬ Js.below mc ec v ↔ Js.at_least mc ec v ∨ Js.isNaN v = true.
Proof.
  destruct v as [s|s| |s m e]; try destruct s; simpl;
    intuition (congruence || lia).
Qed.

Lemma lt_binary64_false (v : Js.number) :
  Js.lt v (Js.binary64 mc ec) = false ↔
  Js.at_least mc ec v ∨ Js.isNaN v = true.
Proof.
  rewrite <- not_below, <- lt_binary64.
  destruct (Js.lt v (Js.binary64 mc ec)); intuition congruence.
Qed.

End Comparisons.

Section Classifier.

Import SecurityStatusContainer.

(** The shape shared by both classifiers: two thresholds, the lower one
    strictly below the upper one. *)
Lemma two_thresholds (m1 m2 : positive) (e1 e2 : Z) (v : Js.number) :
  e1 < e2 ∨ (e1 = e2 ∧ (m1 < m2)%positive) →
  let lo := Js.binary64 m1 e1 in
  let hi := Js.binary64 m2 e2 in
  let level := if Js.lt v lo then ok else if Js.lt v hi then warn else bad in
  (level = ok ↔ Js.lt v lo = true) ∧
  (level = warn ↔ Js.ge v lo = true ∧ Js.lt v hi = true) ∧
  (level = bad ↔ Js.ge v hi = true ∨ Js.isNaN v = true).
Proof.
  intros Hlt lo hi level. subst lo hi level.
  rewrite !ge_binary64.
  destruct (Js.lt v (Js.binary64 m1 e1)) eqn:H1;
    [apply lt_binary64 in H1 | apply lt_binary64_false in H1];
    (destruct (Js.lt v (Js.binary64 m2 e2)) eqn:H2;
     [apply lt_binary64 in H2 | apply lt_binary64_false in H2]);
    destruct v as [s|s| |s m e]; try destruct s; simpl in *;
    intuition (congruence || lia).
Qed.

End Classifier.

(** C4 (amended). [cpuLevel] is [ok] exactly below 0.7, [warn] exactly
    from 0.7 up to but excluding 1.5, and [bad] exactly from 1.5 on or
    when the reading is NaN; [memLevel] likewise with 80 and 95. In
    particular 0.69 is [ok], 0.7 is [warn], 1.5 is [bad], and 79.9, 80,
    95 are [ok], [warn], [bad]. *)
Theorem classify_thresholds (v : Js.number) :
  let cpuLevel := SecurityStatusContainer.cpuLevel in
  let memLevel := SecurityStatusContainer.memLevel in
  let lit_0_7 := SecurityStatusContainer.lit_0_7 in
  let lit_1_5 := SecurityStatusContainer.lit_1_5 in
  let lit_80 := SecurityStatusContainer.lit_80 in
  let lit_95 := SecurityStatusContainer.lit_95 in
  ((cpuLevel v = SecurityStatusContainer.ok ↔ Js.lt v lit_0_7 = true) ∧
   (cpuLevel v = SecurityStatusContainer.warn ↔
      Js.ge v lit_0_7 = true ∧ Js.lt v lit_1_5 = true) ∧
   (cpuLevel v = SecurityStatusContainer.bad ↔
      Js.ge v lit_1_5 = true ∨ Js.isNaN v = true)) ∧
  ((memLevel v = SecurityStatusContainer.ok ↔ Js.lt v lit_80 = true) ∧
   (memLevel v = SecurityStatusContainer.warn ↔
      Js.ge v lit_80 = true ∧ Js.lt v lit_95 = true) ∧
   (memLevel v = SecurityStatusContainer.bad ↔
      Js.ge v lit_95 = true ∨ Js.isNaN v = true)) ∧
  (cpuLevel SecurityStatusContainer.lit_0_69 = SecurityStatusContainer.ok ∧
   cpuLevel lit_0_7 = SecurityStatusContainer.warn ∧
   cpuLevel lit_1_5 = SecurityStatusContainer.bad) ∧
  (memLevel SecurityStatusContainer.lit_79_9 = SecurityStatusContainer.ok ∧
   memLevel lit_80 = SecurityStatusContainer.warn ∧
   memLevel lit_95 = SecurityStatusContainer.bad).
Proof.
  cbv zeta. split; [|split; [|split]].
  - apply two_thresholds. lia.
  - apply two_thresholds. lia.
  - vm_compute. auto.
  - vm_compute. auto.
Qed.

(** C4, as first stated, fails on a reading that does not parse: NaN is
    classified [bad] although [NaN >= 1.5] and [NaN >= 95] are false. *)
Lemma classify_nan_is_bad :
  SecurityStatusContainer.cpuLevel Js.NaN = SecurityStatusContainer.bad ∧
  Js.ge Js.NaN SecurityStatusContainer.lit_1_5 = false ∧
  SecurityStatusContainer.memLevel Js.NaN = SecurityStatusContainer.bad ∧
  Js.ge Js.NaN SecurityStatusContainer.lit_95 = false.
Proof. vm_compute. auto. Qed.

Section PatternChecks.

Import SubstringSpec.

Lemma canonicalize_same_letter (p c : N) :
  (Js.canonicalize p =? Js.canonicalize c)%N = true ↔ same_letter p c.
Proof.
  rewrite N.eqb_eq. unfold Js.canonicalize, same_letter.
  destruct (N.leb_spec 97 p), (N.leb_spec p 122),
    (N.leb_spec 97 c), (N.leb_spec c 122); cbn [andb]; lia.
Qed.

Lemma match_here_spec (pat s : Js.jsstring) :
  Js.match_here pat s = true ↔
  ∃ mid post, s = mid ++ post ∧ Forall2 same_letter pat mid.
Proof.
  revert s. induction pat as [|p pat IH]; intros s; simpl.
  - split; [|done]. intros _. exists [], s. by split; [|constructor].
  - destruct s as [|c s].
    + split; [done|]. intros (mid & post & E & F).
      inversion F; subst. discriminate.
    + rewrite andb_true_iff, canonicalize_same_letter, IH. split.
      * intros (L & mid & post & -> & F).
        exists (c :: mid), post. split; [done|]. by constructor.
      * intros (mid & post & E & F). inversion F as [|? c' ? mid' L F']; subst.
        injection E as <- ->. split; [done|]. by exists mid', post.
Qed.

Lemma regex_test_i_spec (pat s : Js.jsstring) :
  Js.regex_test_i pat s = true ↔ contains_ignoring_case pat s.
Proof.
  unfold contains_ignoring_case. induction s as [|c s IH]; simpl.
  - rewrite orb_false_r, match_here_spec. split.
    + intros (mid & post & E & F). by exists [], mid, post.
    + intros (pre & mid & post & E & F).
      symmetry in E. apply app_eq_nil in E as [-> E].
      by exists mid, post.
  - rewrite orb_true_iff, match_here_spec, IH. split.
    + intros [(mid & post & E & F)|(pre & mid & post & -> & F)].
      * by exists [], mid, post.
      * by exists (c :: pre), mid, post.
    + intros (pre & mid & post & E & F). destruct pre as [|c' pre].
      * left. by exists mid, post.
      * right. injection E as <- ->. by exists pre, mid, post.
Qed.

End PatternChecks.

(** C5. Whatever the snapshot, the server, database and webhook
    severities are [ok] or [bad], and the variants of their three entries
    are [success] or [destructive]. The database is [ok] exactly when
    its status string contains ["connected"] in any letter case, the
    server exactly when its string contains ["server started"] or
    ["started"] in any letter case, the webhook exactly when its
    [success] flag is set. *)
Theorem three_subsystems_never_warn
    (parseFloat : Js.jsstring → Js.number)
    (String toFixed0 : Js.number → Js.jsstring)
    (api : SecurityStatusContainer.Api.Data) :
  let ok := SecurityStatusContainer.ok in
  let bad := SecurityStatusContainer.bad in
  let serverLevel := SecurityStatusContainer.serverLevel api in
  let dbLevel := SecurityStatusContainer.dbLevel api in
  let hookLevel := SecurityStatusContainer.hookLevel api in
  ((serverLevel = ok ∨ serverLevel = bad) ∧
   (dbLevel = ok ∨ dbLevel = bad) ∧
   (hookLevel = ok ∨ hookLevel = bad)) ∧
  (∀ entry,
     entry ∈ SecurityStatusContainer.toStatuses parseFloat String toFixed0 api →
     SecurityStatusContainer.title entry ∈
       [Js.str "SERVER"; Js.str "DATABASE"; Js.str "WEBHOOK"] →
     SecurityStatusContainer.variant entry = SecurityStatusContainer.success ∨
     SecurityStatusContainer.variant entry = SecurityStatusContainer.destructive) ∧
  (serverLevel = ok ↔
     SubstringSpec.contains_ignoring_case (Js.str "server started")
       (Js.or_default (SecurityStatusContainer.Api.server api) []) ∨
     SubstringSpec.contains_ignoring_case (Js.str "started")
       (Js.or_default (SecurityStatusContainer.Api.server api) [])) ∧
  (dbLevel = ok ↔
     SubstringSpec.contains_ignoring_case (Js.str "connected")
       (Js.or_default (SecurityStatusContainer.Api.dbStatus api) [])) ∧
  (hookLevel = ok ↔
     ∃ hook, SecurityStatusContainer.Api.paymentWebhookStatus api = Some hook ∧
             SecurityStatusContainer.Api.success hook = true).
Proof.
  cbv zeta.
  unfold SecurityStatusContainer.serverLevel, SecurityStatusContainer.dbLevel,
    SecurityStatusContainer.hookLevel.
  split; [|split; [|split; [|split]]].
  - destruct (SecurityStatusContainer.serverUp api),
      (SecurityStatusContainer.dbConnected api),
      (SecurityStatusContainer.hookOk api); auto.
  - intros entry Hin Htitle.
    unfold SecurityStatusContainer.toStatuses in Hin.
    unfold SecurityStatusContainer.serverLevel, SecurityStatusContainer.dbLevel,
      SecurityStatusContainer.hookLevel in Hin.
    rewrite !elem_of_cons in Hin. rewrite elem_of_nil in Hin.
    destruct Hin as [->|[->|[->|[->|[->|[]]]]]]; simpl in *.
    + destruct (SecurityStatusContainer.serverUp api); auto.
    + destruct (SecurityStatusContainer.dbConnected api); auto.
    + exfalso. rewrite !elem_of_cons in Htitle. rewrite elem_of_nil in Htitle.
      vm_compute in Htitle. intuition discriminate.
    + exfalso. rewrite !elem_of_cons in Htitle. rewrite elem_of_nil in Htitle.
      vm_compute in Htitle. intuition discriminate.
    + destruct (SecurityStatusContainer.hookOk api); auto.
  - rewrite <- !regex_test_i_spec, <- orb_true_iff.
    fold (SecurityStatusContainer.serverUp api).
    destruct (SecurityStatusContainer.serverUp api); intuition congruence.
  - rewrite <- regex_test_i_spec.
    fold (SecurityStatusContainer.dbConnected api).
    destruct (SecurityStatusContainer.dbConnected api); intuition congruence.
  - unfold SecurityStatusContainer.hookOk.
    destruct (SecurityStatusContainer.Api.paymentWebhookStatus api) as [hook|].
    + destruct (SecurityStatusContainer.Api.success hook) eqn:E.
      * split; [|done]. intros _. by exists hook.
      * split; [done|]. intros (h & [= <-] & E'). congruence.
    + split; [done|]. by intros (h & ? & _).
Qed.

(** ** Addon forms *)

Section Forms.

(** The test [!Number.isFinite(valueNum) || valueNum < 0] rejects exactly
    the values that are not finite and non-negative. *)
Lemma rejects_value_spec (v : Js.number) :
  negb (Js.isFinite v) || Js.lt v Js.zero = true ↔
  ¬ (Js.isFinite v = true ∧ Js.ge v Js.zero = true).
Proof.
  destruct v as [s|s| |s m e]; try destruct s; vm_compute;
    intuition congruence.
Qed.

Lemma trimStart_nil (s : Js.jsstring) :
  Js.trimStart s = [] ↔ Forall (λ c, Js.isWhiteSpace c = true) s.
Proof.
  induction s as [|c s IH]; simpl.
  - split; [constructor|done].
  - destruct (Js.isWhiteSpace c) eqn:W.
    + rewrite IH. split; [by constructor|by inversion 1].
    + split; [done|]. inversion 1; congruence.
Qed.

(** What [trimStart] leaves does not start with white space. *)
Lemma trimStart_head (s : Js.jsstring) :
  Forall (λ c, Js.isWhiteSpace c = true) (Js.trimStart s) →
  Js.trimStart s = [].
Proof.
  induction s as [|c s IH]; simpl; [done|].
  destruct (Js.isWhiteSpace c) eqn:W; [done|].
  inversion 1; congruence.
Qed.

(** The trimmed string is empty exactly when the string is made of white
    space and line terminators only. *)
Lemma trim_nil (s : Js.jsstring) :
  Js.trim s = [] ↔ Forall (λ c, Js.isWhiteSpace c = true) s.
Proof.
  unfold Js.trim, Js.trimEnd. split.
  - intros H. apply (f_equal reverse) in H.
    rewrite reverse_involutive, reverse_nil in H.
    apply (proj1 (trimStart_nil _)) in H.
    apply (proj1 (Forall_reverse _ _)) in H.
    apply trimStart_nil. by apply trimStart_head.
  - intros H. apply (proj2 (trimStart_nil _)) in H. by rewrite H.
Qed.

Lemma falsy_nil (s : Js.jsstring) : Js.falsy s = true ↔ s = [].
Proof. by destruct s. Qed.

Lemma strict_neq_false (a b : Js.jsstring) :
  Js.strict_neq a b = false ↔ a = b.
Proof.
  unfold Js.strict_neq. rewrite negb_false_iff. apply bool_decide_eq_true.
Qed.

End Forms.

(** C6. When the trimmed title is empty, or the trimmed description is
    empty, or the converted value is not a finite non-negative number,
    submitting the create form sets one of the three validation messages
    and returns: the only effect is [preventDefault], no request is
    issued, and the form fields and the [submitting] flag are as before
    (the earlier success message is cleared). *)
Theorem create_validation_blocks_request
    (Number : Js.jsstring → Js.number)
    (respond : CreateAddons.Effect → Js.Response)
    (st : CreateAddons.State) :
  let form := CreateAddons.form st in
  Js.trim (CreateAddons.title form) = [] ∨
  Js.trim (CreateAddons.description form) = [] ∨
  ¬ (Js.isFinite (Number (CreateAddons.value form)) = true ∧
     Js.ge (Number (CreateAddons.value form)) Js.zero = true) →
  ∃ message,
    message ∈ [Js.str "TITLE_IS_REQUIRED"; Js.str "DESCRIPTION_IS_REQUIRED";
               Js.str "VALUE_MUST_BE_NON_NEGATIVE_NUMBER"] ∧
    CreateAddons.submit_form Number respond st =
      ({| CreateAddons.form := form;
          CreateAddons.error := Some message;
          CreateAddons.success := None;
          CreateAddons.submitting := CreateAddons.submitting st |},
       [CreateAddons.PreventDefault]).
Proof.
  intros form H. subst form.
  unfold CreateAddons.submit_form, CreateAddons.onSubmit.
  destruct (Js.falsy (Js.trim (CreateAddons.title (CreateAddons.form st))))
    eqn:Ht.
  { exists (Js.str "TITLE_IS_REQUIRED"). split; [rewrite !elem_of_cons; auto|]. reflexivity. }
  destruct (Js.falsy (Js.trim (CreateAddons.description (CreateAddons.form st))))
    eqn:Hd.
  { exists (Js.str "DESCRIPTION_IS_REQUIRED"). split; [rewrite !elem_of_cons; auto|].
    reflexivity. }
  destruct (negb (Js.isFinite (Number (CreateAddons.value (CreateAddons.form st))))
            || Js.lt (Number (CreateAddons.value (CreateAddons.form st))) Js.zero)
    eqn:Hv.
  { exists (Js.str "VALUE_MUST_BE_NON_NEGATIVE_NUMBER"). split; [rewrite !elem_of_cons; auto|].
    reflexivity. }
  exfalso. destruct H as [H|[H|H]].
  - apply falsy_nil in H. congruence.
  - apply falsy_nil in H. congruence.
  - apply rejects_value_spec in H. congruence.
Qed.

Lemma create_validation_blocks_request_witness :
  ∃ message,
    message ∈ [Js.str "TITLE_IS_REQUIRED"; Js.str "DESCRIPTION_IS_REQUIRED";
               Js.str "VALUE_MUST_BE_NON_NEGATIVE_NUMBER"] ∧
    CreateAddons.submit_form Number_sample (λ _, Js.Resolved)
      {| CreateAddons.form :=
           {| CreateAddons.title := Js.str "  ";
              CreateAddons.description := Js.str "Payroll";
              CreateAddons.value := Js.str "5" |};
         CreateAddons.error := None;
         CreateAddons.success := Some (Js.str "ADDON_CREATED_SUCCESSFULLY");
         CreateAddons.submitting := false |} =
      ({| CreateAddons.form :=
            {| CreateAddons.title := Js.str "  ";
               CreateAddons.description := Js.str "Payroll";
               CreateAddons.value := Js.str "5" |};
          CreateAddons.error := Some message;
          CreateAddons.success := None;
          CreateAddons.submitting := false |},
       [CreateAddons.PreventDefault]).
Proof.
  apply (create_validation_blocks_request Number_sample (λ _, Js.Resolved)
           {| CreateAddons.form :=
                {| CreateAddons.title := Js.str "  ";
                   CreateAddons.description := Js.str "Payroll";
                   CreateAddons.value := Js.str "5" |};
              CreateAddons.error := None;
              CreateAddons.success := Some (Js.str "ADDON_CREATED_SUCCESSFULLY");
              CreateAddons.submitting := false |}).
  left. vm_compute. reflexivity.
Defined.

(** Conversely, once the three checks pass, the create form sends its
    request with the trimmed fields. *)
Lemma create_submit_sends
    (Number : Js.jsstring → Js.number)
    (respond : CreateAddons.Effect → Js.Response)
    (st : CreateAddons.State) :
  let form := CreateAddons.form st in
  Js.trim (CreateAddons.title form) ≠ [] →
  Js.trim (CreateAddons.description form) ≠ [] →
  Js.isFinite (Number (CreateAddons.value form)) = true →
  Js.ge (Number (CreateAddons.value form)) Js.zero = true →
  let request :=
    CreateAddons.ApiPost (Js.str "/api/addons/create")
      (Js.trim (CreateAddons.title form))
      (Js.trim (CreateAddons.description form))
      (Number (CreateAddons.value form)) in
  CreateAddons.submit_form Number respond st =
  match respond request with
  | Js.Resolved =>
      ({| CreateAddons.form := form;
          CreateAddons.error := None;
          CreateAddons.success := Some (Js.str "ADDON_CREATED_SUCCESSFULLY");
          CreateAddons.submitting := false |},
       [CreateAddons.PreventDefault; request;
        CreateAddons.SetTimeout 1500 (Js.str "/addons")])
  | Js.Rejected message =>
      ({| CreateAddons.form := form;
          CreateAddons.error :=
            Some (Js.or_default message (Js.str "FAILED_TO_CREATE_ADDON"));
          CreateAddons.success := None;
          CreateAddons.submitting := false |},
       [CreateAddons.PreventDefault; request])
  | Js.RejectedNullish =>
      ({| CreateAddons.form := form;
          CreateAddons.error := Some (Js.str "FAILED_TO_CREATE_ADDON");
          CreateAddons.success := None;
          CreateAddons.submitting := false |},
       [CreateAddons.PreventDefault; request])
  end.
Proof.
  intros form Ht Hd Hfin Hge request. subst form request.
  unfold CreateAddons.submit_form, CreateAddons.onSubmit.
  destruct (Js.falsy (Js.trim (CreateAddons.title (CreateAddons.form st))))
    eqn:Ft.
  { apply falsy_nil in Ft. done. }
  destruct (Js.falsy (Js.trim (CreateAddons.description (CreateAddons.form st))))
    eqn:Fd.
  { apply falsy_nil in Fd. done. }
  destruct (negb (Js.isFinite (Number (CreateAddons.value (CreateAddons.form st))))
            || Js.lt (Number (CreateAddons.value (CreateAddons.form st))) Js.zero)
    eqn:V.
  { apply rejects_value_spec in V. tauto. }
  unfold Js.run, CreateAddons.apiClient_post. cbn.
  destruct (respond _); reflexivity.
Qed.

(** A valid create form does reach the backend: the request carries the
    trimmed fields, and a resolved request schedules the redirect. *)
Example create_valid_form_posts :
  CreateAddons.submit_form Number_sample (λ _, Js.Resolved)
    {| CreateAddons.form :=
         {| CreateAddons.title := Js.str " Staff ";
            CreateAddons.description := Js.str "Payroll";
            CreateAddons.value := Js.str "5" |};
       CreateAddons.error := None;
       CreateAddons.success := None;
       CreateAddons.submitting := false |} =
  ({| CreateAddons.form :=
        {| CreateAddons.title := Js.str " Staff ";
           CreateAddons.description := Js.str "Payroll";
           CreateAddons.value := Js.str "5" |};
      CreateAddons.error := None;
      CreateAddons.success := Some (Js.str "ADDON_CREATED_SUCCESSFULLY");
      CreateAddons.submitting := false |},
   [CreateAddons.PreventDefault;
    CreateAddons.ApiPost (Js.str "/api/addons/create") (Js.str "Staff")
      (Js.str "Payroll") (Js.binary64 0x14000000000000 (-50));
    CreateAddons.SetTimeout 1500 (Js.str "/addons")]).
Proof. vm_compute. reflexivity. Qed.

(** The edit form does stop on a missing id and on a bad value. *)
Example edit_rejects_bad_value :
  let sp := [(Js.str "id", Js.str "a1"); (Js.str "title", Js.str "Staff")] in
  let st := {| EditAddonPage.title := Js.str "Staff";
               EditAddonPage.description := Js.str "Payroll";
               EditAddonPage.value := Js.str "abc";
               EditAddonPage.status := Js.str "ACTIVE";
               EditAddonPage.error := None;
               EditAddonPage.saving := false |} in
  EditAddonPage.submit_form Number_sample (λ _, Js.Resolved) sp st =
  ({| EditAddonPage.title := Js.str "Staff";
      EditAddonPage.description := Js.str "Payroll";
      EditAddonPage.value := Js.str "abc";
      EditAddonPage.status := Js.str "ACTIVE";
      EditAddonPage.error := Some (Js.str "VALUE_MUST_BE_NON_NEGATIVE_NUMBER");
      EditAddonPage.saving := false |},
   [EditAddonPage.PreventDefault]).
Proof. vm_compute. reflexivity. Qed.

(** A rejection with [undefined] ends the two handlers differently: the
    create form reports [FAILED_TO_CREATE_ADDON]; the edit form's [catch]
    block throws, so [submit] is rejected with no error message set,
    after [finally] has cleared [saving]. *)
Example edit_catch_throws_on_nullish_rejection :
  let sp := [(Js.str "id", Js.str "a1")] in
  let st := {| EditAddonPage.title := Js.str "Staff";
               EditAddonPage.description := Js.str "Payroll";
               EditAddonPage.value := Js.str "5";
               EditAddonPage.status := Js.str "ACTIVE";
               EditAddonPage.error := None;
               EditAddonPage.saving := false |} in
  let form := {| CreateAddons.title := Js.str "Staff";
                 CreateAddons.description := Js.str "Payroll";
                 CreateAddons.value := Js.str "5" |} in
  EditAddonPage.submit Number_sample (λ _, Js.RejectedNullish) sp st st [] =
    (EditAddonPage.ThrewTypeError,
     {| EditAddonPage.title := Js.str "Staff";
        EditAddonPage.description := Js.str "Payroll";
        EditAddonPage.value := Js.str "5";
        EditAddonPage.status := Js.str "ACTIVE";
        EditAddonPage.error := None;
        EditAddonPage.saving := false |},
     [EditAddonPage.PreventDefault;
      EditAddonPage.ApiPatch (Js.str "/api/addons/edit") (Js.str "a1")
        (Js.str "Staff") (Js.str "Payroll")
        (Js.binary64 0x14000000000000 (-50)) (Js.str "ACTIVE")]) ∧
  CreateAddons.error
    (CreateAddons.submit_form Number_sample (λ _, Js.RejectedNullish)
       {| CreateAddons.form := form; CreateAddons.error := None;
          CreateAddons.success := None; CreateAddons.submitting := false |}).1
  = Some (Js.str "FAILED_TO_CREATE_ADDON").
Proof. vm_compute. split; reflexivity. Qed.

(** Once the id is present and the value is finite and non-negative,
    the edit form sends its PATCH request with the title and the
    description as they stand. *)
Lemma edit_submit_sends
    (Number : Js.jsstring → Js.number)
    (respond : EditAddonPage.Effect → Js.Response)
    (sp : EditAddonPage.URLSearchParams) (st : EditAddonPage.State) :
  EditAddonPage.id sp ≠ [] →
  Js.isFinite (Number (EditAddonPage.value st)) = true →
  Js.ge (Number (EditAddonPage.value st)) Js.zero = true →
  let request :=
    EditAddonPage.ApiPatch (Js.str "/api/addons/edit") (EditAddonPage.id sp)
      (EditAddonPage.title st) (EditAddonPage.description st)
      (Number (EditAddonPage.value st)) (EditAddonPage.status st) in
  EditAddonPage.submit_form Number respond sp st =
  match respond request with
  | Js.Resolved =>
      ({| EditAddonPage.title := EditAddonPage.title st;
          EditAddonPage.description := EditAddonPage.description st;
          EditAddonPage.value := EditAddonPage.value st;
          EditAddonPage.status := EditAddonPage.status st;
          EditAddonPage.error := None;
          EditAddonPage.saving := false |},
       [EditAddonPage.PreventDefault; request;
        EditAddonPage.SetTimeout 1000 (Js.str "/addons")])
  | Js.Rejected message =>
      ({| EditAddonPage.title := EditAddonPage.title st;
          EditAddonPage.description := EditAddonPage.description st;
          EditAddonPage.value := EditAddonPage.value st;
          EditAddonPage.status := EditAddonPage.status st;
          EditAddonPage.error :=
            Some (Js.or_default message (Js.str "UPDATE_FAILED"));
          EditAddonPage.saving := false |},
       [EditAddonPage.PreventDefault; request])
  | Js.RejectedNullish =>
      ({| EditAddonPage.title := EditAddonPage.title st;
          EditAddonPage.description := EditAddonPage.description st;
          EditAddonPage.value := EditAddonPage.value st;
          EditAddonPage.status := EditAddonPage.status st;
          EditAddonPage.error := None;
          EditAddonPage.saving := false |},
       [EditAddonPage.PreventDefault; request])
  end.
Proof.
  intros Hid Hfin Hge request. subst request.
  unfold EditAddonPage.submit_form, EditAddonPage.submit.
  destruct (Js.falsy (EditAddonPage.id sp)) eqn:F.
  { apply falsy_nil in F. done. }
  destruct (negb (Js.isFinite (Number (EditAddonPage.value st)))
            || Js.lt (Number (EditAddonPage.value st)) Js.zero) eqn:V.
  { apply rejects_value_spec in V. tauto. }
  unfold Js.run, EditAddonPage.apiClient_patch. cbn.
  destruct (respond _); reflexivity.
Qed.

(** C7. The edit form checks the id and the value only. With the title
    and the description cleared, the submit button is enabled and
    submitting issues the PATCH request with both fields empty; no
    validation error is set. *)
Theorem edit_submits_empty_title (respond : EditAddonPage.Effect → Js.Response) :
  let sp := [(Js.str "id", Js.str "a1"); (Js.str "title", Js.str "Staff");
             (Js.str "description", Js.str "Payroll");
             (Js.str "value", Js.str "5")] in
  let st := {| EditAddonPage.title := [];
               EditAddonPage.description := [];
               EditAddonPage.value := Js.str "5";
               EditAddonPage.status := Js.str "ACTIVE";
               EditAddonPage.error := None;
               EditAddonPage.saving := false |} in
  let request :=
    EditAddonPage.ApiPatch (Js.str "/api/addons/edit") (Js.str "a1") [] []
      (Js.binary64 0x14000000000000 (-50)) (Js.str "ACTIVE") in
  EditAddonPage.submit_disabled sp st = false ∧
  ∃ rest,
    (EditAddonPage.submit_form Number_sample respond sp st).2 =
      EditAddonPage.PreventDefault :: request :: rest ∧
    (respond request = Js.Resolved →
     EditAddonPage.error
       (EditAddonPage.submit_form Number_sample respond sp st).1 = None).
Proof.
  intros sp st request. split; [by vm_compute|].
  pose proof (edit_submit_sends Number_sample respond sp st) as E.
  cbv zeta in E. rewrite E by (by vm_compute). clear E.
  change (EditAddonPage.ApiPatch _ _ _ _ _ _) with request.
  destruct (respond request).
  - by exists [EditAddonPage.SetTimeout 1000 (Js.str "/addons")].
  - exists []. split; [done|discriminate].
  - exists []. split; [done|discriminate].
Qed.

(** C8. [hasChanges] is false exactly when title, description, value and
    status equal the initial values read from the query (a missing or
    empty parameter reads as the empty string, and as ["ACTIVE"] for the
    status); a form with [hasChanges] false, such as the freshly mounted
    one, has its submit button disabled. *)
Theorem hasChanges_false_iff_initial
    (sp : EditAddonPage.URLSearchParams) (st : EditAddonPage.State) :
  (EditAddonPage.hasChanges sp st = false ↔
     EditAddonPage.title st =
       Js.or_default (EditAddonPage.get sp (Js.str "title")) [] ∧
     EditAddonPage.description st =
       Js.or_default (EditAddonPage.get sp (Js.str "description")) [] ∧
     EditAddonPage.value st =
       Js.or_default (EditAddonPage.get sp (Js.str "value")) [] ∧
     EditAddonPage.status st =
       Js.or_default (EditAddonPage.get sp (Js.str "status")) (Js.str "ACTIVE")) ∧
  (EditAddonPage.hasChanges sp st = false →
     EditAddonPage.submit_disabled sp st = true) ∧
  EditAddonPage.hasChanges sp (EditAddonPage.mount sp) = false.
Proof.
  assert (E : ∀ st',
    EditAddonPage.hasChanges sp st' = false ↔
    EditAddonPage.title st' = EditAddonPage.initialTitle sp ∧
    EditAddonPage.description st' = EditAddonPage.initialDescription sp ∧
    EditAddonPage.value st' = EditAddonPage.initialValue sp ∧
    EditAddonPage.status st' = EditAddonPage.initialStatus sp).
  { intros st'. unfold EditAddonPage.hasChanges.
    rewrite !orb_false_iff, !strict_neq_false. tauto. }
  split; [apply E|split].
  - intros H. unfold EditAddonPage.submit_disabled. rewrite H.
    apply orb_true_r.
  - apply E. done.
Qed.

(* ===================================================================== *)
(** * Part III: further properties of the code                            *)
(* ===================================================================== *)

(** ** Navigation bars *)

Section NavBars.

Import PaginationNav.

Lemma seqZ_sorted (n : nat) (m : Z) : StronglySorted Z.lt (seqZ m (Z.of_nat n)).
Proof.
  revert m. induction n as [|n IH]; intros m.
  - rewrite seqZ_nil by lia. constructor.
  - rewrite seqZ_cons by lia.
    replace (Z.pred (Z.of_nat (S n))) with (Z.of_nat n) by lia.
    constructor; [apply IH|]. apply Forall_seqZ. lia.
Qed.

Lemma interval_sorted (a b : Z) : StronglySorted Z.lt (WindowSpec.interval a b).
Proof.
  unfold WindowSpec.interval. destruct (decide (b - a + 1 ≤ 0)).
  - rewrite seqZ_nil by done. constructor.
  - replace (b - a + 1) with (Z.of_nat (Z.to_nat (b - a + 1))) by lia.
    apply seqZ_sorted.
Qed.

Lemma interval_head (a b : Z) :
  a ≤ b → WindowSpec.interval a b !! 0%nat = Some a.
Proof.
  intros H. unfold WindowSpec.interval.
  rewrite lookup_seqZ_lt by lia. f_equal. lia.
Qed.

Lemma interval_last (a b : Z) : a ≤ b → last (WindowSpec.interval a b) = Some b.
Proof.
  intros H. rewrite last_lookup, interval_length. unfold WindowSpec.interval.
  rewrite lookup_seqZ_lt by lia. f_equal. lia.
Qed.

Lemma interval_nil (a b : Z) : WindowSpec.interval a b = [] ↔ b < a.
Proof.
  split.
  - intros H. apply (f_equal length) in H.
    rewrite interval_length in H. simpl in H. lia.
  - intros H. unfold WindowSpec.interval. apply seqZ_nil. lia.
Qed.

(** The bounds of the addons window, for a safe number of pages. *)
Lemma addons_window_bounds (cp tp : Z) :
  1 ≤ cp → 1 ≤ tp ≤ Js.MAX_SAFE_INTEGER →
  ∃ s e, AddonsPage.pages cp tp = WindowSpec.interval s e ∧
         1 ≤ s ∧ s ≤ e ∧ e ≤ tp ∧ (cp ≤ tp → s ≤ cp ≤ e).
Proof.
  intros Hcp Htp. eexists _, _.
  split; [by apply addons_pages_interval|]. lia.
Qed.

Lemma labels_page_buttons (cp : Z) (pages : list Z) :
  labels ((λ p, PageButton p (p =? cp)) <$> pages) = pages.
Proof.
  unfold labels. induction pages as [|p pages IH]; csimpl; [done|].
  by rewrite IH.
Qed.

Lemma labels_app (l1 l2 : list Item) :
  labels (l1 ++ l2) = labels l1 ++ labels l2.
Proof. apply omap_app. Qed.

(** The numbered buttons of an addons bar: [1] when the window starts
    later, the window, [totalPages] when the window ends earlier. *)
Lemma labels_addons_items (pages : list Z) (cp tp prev next : Z) :
  labels (addons_items pages cp tp prev next) =
  (if first_gt pages 1 then [1] else []) ++ pages
  ++ (if last_lt pages tp then [tp] else []).
Proof.
  unfold addons_items. rewrite !labels_app, labels_page_buttons.
  destruct (first_gt pages 1), (first_gt pages 2),
    (last_lt pages tp), (last_lt pages (Js.int_sub tp 1)); reflexivity.
Qed.

Lemma ellipsis_addons_items (pages : list Z) (cp tp prev next : Z) :
  Ellipsis ∈ addons_items pages cp tp prev next ↔
  first_gt pages 1 && first_gt pages 2 = true ∨
  last_lt pages tp && last_lt pages (Js.int_sub tp 1) = true.
Proof.
  unfold addons_items. rewrite !elem_of_app, list_elem_of_fmap.
  destruct (first_gt pages 1), (first_gt pages 2),
    (last_lt pages tp), (last_lt pages (Js.int_sub tp 1)); simpl;
    rewrite ?elem_of_cons, ?elem_of_nil;
    intuition (try discriminate; auto);
    match goal with H : ∃ _, _ |- _ => destruct H as (? & ? & _) end;
    discriminate.
Qed.

Lemma first_gt_interval (s e k : Z) :
  s ≤ e → first_gt (WindowSpec.interval s e) k = (k <? s).
Proof. intros H. unfold first_gt. by rewrite interval_head. Qed.

Lemma last_lt_interval (s e k : Z) :
  s ≤ e → last_lt (WindowSpec.interval s e) k = (e <? k).
Proof. intros H. unfold last_lt. by rewrite interval_last. Qed.

Lemma addons_client_nav_eq (p : AddonsPageClient.Pagination) :
  addons_client_nav p =
  addons_nav (AddonsPageClient.currentPage p) (AddonsPageClient.totalPages p).
Proof. reflexivity. Qed.

Lemma interval_cons (a b : Z) :
  a ≤ b → WindowSpec.interval a b = a :: WindowSpec.interval (a + 1) b.
Proof.
  intros H. unfold WindowSpec.interval. rewrite seqZ_cons by lia.
  f_equal. f_equal; lia.
Qed.

Lemma interval_snoc (a b : Z) :
  a ≤ b → WindowSpec.interval a b = WindowSpec.interval a (b - 1) ++ [b].
Proof.
  intros H. unfold WindowSpec.interval.
  replace (b - a + 1) with ((b - 1 - a + 1) + 1) by lia.
  rewrite seqZ_app by lia. f_equal.
  rewrite seqZ_cons by lia. rewrite seqZ_nil by lia. f_equal. lia.
Qed.

Lemma highlighted_app (l1 l2 : list Item) :
  highlighted (l1 ++ l2) = highlighted l1 ++ highlighted l2.
Proof. apply omap_app. Qed.

Lemma highlighted_page_buttons (cp : Z) (pages : list Z) :
  highlighted ((λ p, PageButton p (p =? cp)) <$> pages) =
  filter (λ p, p = cp) pages.
Proof.
  unfold highlighted. induction pages as [|p pages IH]; csimpl; [done|].
  rewrite filter_cons, IH. destruct (Z.eqb_spec p cp), (decide (p = cp)); done.
Qed.

Lemma highlighted_addons_items (pages : list Z) (cp tp prev next : Z) :
  highlighted (addons_items pages cp tp prev next) =
  filter (λ p, p = cp) pages.
Proof.
  unfold addons_items. rewrite !highlighted_app, highlighted_page_buttons.
  destruct (first_gt pages 1), (first_gt pages 2),
    (last_lt pages tp), (last_lt pages (Js.int_sub tp 1)); simpl;
    by rewrite ?app_nil_r.
Qed.

Lemma filter_eq_seqZ (cp : Z) (n : nat) (a : Z) :
  filter (λ p, p = cp) (seqZ a (Z.of_nat n)) =
  if decide (a ≤ cp < a + Z.of_nat n) then [cp] else [].
Proof.
  revert a. induction n as [|n IH]; intros a.
  - rewrite seqZ_nil by lia. by destruct (decide _); [lia|].
  - rewrite seqZ_cons by lia.
    replace (Z.pred (Z.of_nat (S n))) with (Z.of_nat n) by lia.
    rewrite filter_cons, IH.
    destruct (decide (a = cp)) as [->|], (decide (Z.succ _ ≤ cp < _)),
      (decide (_ ≤ cp < _)); try done; lia.
Qed.

Lemma filter_eq_interval (cp s e : Z) :
  filter (λ p, p = cp) (WindowSpec.interval s e) =
  if decide (s ≤ cp ≤ e) then [cp] else [].
Proof.
  unfold WindowSpec.interval. destruct (decide (e - s + 1 ≤ 0)).
  - rewrite seqZ_nil by done. by destruct (decide _); [lia|].
  - replace (e - s + 1) with (Z.of_nat (Z.to_nat (e - s + 1))) by lia.
    rewrite filter_eq_seqZ.
    destruct (decide (_ ≤ cp < _)), (decide (_ ≤ cp ≤ _)); try done; lia.
Qed.

End NavBars.

(** X1. For [currentPage >= 1] and [totalPages >= 1] a safe integer (at
    most [2^53 - 1]), the numbered buttons of the addons bar (both
    copies) read, from left to right, a strictly increasing list that
    starts at 1 and ends at [totalPages]: the first and the last page are
    always one click away and no number is shown twice. *)
Theorem addons_nav_first_and_last (currentPage totalPages : Z) :
  1 ≤ currentPage → 1 ≤ totalPages ≤ Js.MAX_SAFE_INTEGER →
  let numbers :=
    PaginationNav.labels (PaginationNav.addons_nav currentPage totalPages) in
  StronglySorted Z.lt numbers ∧
  head numbers = Some 1 ∧ last numbers = Some totalPages ∧
  ∀ p, AddonsPageClient.currentPage p = currentPage →
       AddonsPageClient.totalPages p = totalPages →
       PaginationNav.labels (PaginationNav.addons_client_nav p) = numbers.
Proof.
  intros Hcp Htp numbers. subst numbers.
  destruct (addons_window_bounds currentPage totalPages Hcp Htp)
    as (s & e & E & Hs & Hse & He & _).
  split; [|split; [|split]]; cycle 3.
  { intros p <- <-. by rewrite addons_client_nav_eq. }
  all: unfold PaginationNav.addons_nav;
    rewrite labels_addons_items, E, first_gt_interval, last_lt_interval
      by done.
  - destruct (Z.ltb_spec 1 s), (Z.ltb_spec e totalPages);
      repeat (apply StronglySorted_app_2
              || apply interval_sorted
              || (repeat constructor; fail));
      intros x1 x2; rewrite ?elem_of_app, ?interval_elem,
        ?list_elem_of_singleton, ?elem_of_nil; lia.
  - destruct (Z.ltb_spec 1 s); [done|].
    replace s with 1 by lia. rewrite interval_cons by lia. done.
  - destruct (Z.ltb_spec e totalPages).
    + by rewrite !app_assoc, last_snoc.
    + rewrite app_nil_r. replace totalPages with e by lia.
      rewrite interval_snoc by lia. by rewrite !app_assoc, last_snoc.
Qed.

Lemma addons_nav_first_and_last_witness :
  let numbers := PaginationNav.labels (PaginationNav.addons_nav 6 20) in
  StronglySorted Z.lt numbers ∧
  head numbers = Some 1 ∧ last numbers = Some 20 ∧
  ∀ p, AddonsPageClient.currentPage p = 6 →
       AddonsPageClient.totalPages p = 20 →
       PaginationNav.labels (PaginationNav.addons_client_nav p) = numbers.
Proof.
  apply (addons_nav_first_and_last 6 20); unfold Js.MAX_SAFE_INTEGER; lia.
Defined.

(** X2. For [currentPage >= 1] and [totalPages >= 1] a safe integer (at
    most [2^53 - 1]), an ellipsis is drawn in the addons bar exactly when
    some page between 1 and [totalPages] has no numbered button. *)
Theorem addons_nav_ellipsis_iff_gap (currentPage totalPages : Z) :
  1 ≤ currentPage → 1 ≤ totalPages ≤ Js.MAX_SAFE_INTEGER →
  PaginationNav.Ellipsis ∈ PaginationNav.addons_nav currentPage totalPages ↔
  PaginationNav.labels (PaginationNav.addons_nav currentPage totalPages)
    ≠ WindowSpec.interval 1 totalPages.
Proof.
  intros Hcp Htp.
  destruct (addons_window_bounds currentPage totalPages Hcp Htp)
    as (s & e & E & Hs & Hse & He & _).
  unfold PaginationNav.addons_nav.
  rewrite ellipsis_addons_items, labels_addons_items, E,
    !first_gt_interval, !last_lt_interval by done.
  rewrite (prev_exact totalPages) by done.
  unfold Js.MAX_SAFE_INTEGER in *.
  split.
  - intros Hgap Heq. apply (f_equal length) in Heq.
    rewrite !length_app, !interval_length in Heq.
    destruct (Z.ltb_spec 1 s), (Z.ltb_spec 2 s), (Z.ltb_spec e totalPages),
      (Z.ltb_spec e (totalPages - 1)); simpl in *;
      destruct Hgap; try discriminate; lia.
  - intros Hne.
    destruct (Z.ltb_spec 1 s), (Z.ltb_spec 2 s), (Z.ltb_spec e totalPages),
      (Z.ltb_spec e (totalPages - 1)); simpl; auto; try lia;
      exfalso; apply Hne.
    + replace s with 2 by lia. replace e with (totalPages - 1) by lia.
      rewrite (interval_cons 1 totalPages) by lia. change (1 + 1) with 2.
      rewrite (interval_snoc 2 totalPages) by lia. done.
    + replace s with 2 by lia. replace e with totalPages by lia.
      rewrite (interval_cons 1 totalPages) by lia. by rewrite app_nil_r.
    + replace s with 1 by lia. replace e with (totalPages - 1) by lia.
      by rewrite (interval_snoc 1 totalPages) by lia.
    + replace s with 1 by lia. replace e with totalPages by lia.
      by rewrite app_nil_r.
Qed.

Lemma addons_nav_ellipsis_iff_gap_witness :
  PaginationNav.Ellipsis ∈ PaginationNav.addons_nav 6 20 ↔
  PaginationNav.labels (PaginationNav.addons_nav 6 20)
    ≠ WindowSpec.interval 1 20.
Proof.
  apply (addons_nav_ellipsis_iff_gap 6 20); unfold Js.MAX_SAFE_INTEGER; lia.
Defined.

Section Highlight.

Import PaginationNav.

Lemma highlighted_workspace_nav (cp tp : Z) :
  highlighted (workspace_nav cp tp) =
  filter (λ p, p = cp) (WorkspacePage.pages cp tp).
Proof.
  unfold workspace_nav. rewrite !highlighted_app, highlighted_page_buttons.
  simpl. by rewrite app_nil_r.
Qed.

Lemma labels_workspace_nav (cp tp : Z) :
  labels (workspace_nav cp tp) = WorkspacePage.pages cp tp.
Proof.
  unfold workspace_nav. rewrite !labels_app, labels_page_buttons.
  simpl. by rewrite app_nil_r.
Qed.

End Highlight.

(** X3. For [1 <= currentPage <= totalPages], with [totalPages] a safe
    integer (at most [2^53 - 1]), exactly one numbered button is drawn as
    the current page, the one labelled [currentPage], in the addons bar
    and in the workspace bar alike. *)
Theorem nav_highlights_current_page (currentPage totalPages : Z) :
  1 ≤ currentPage ≤ totalPages → totalPages ≤ Js.MAX_SAFE_INTEGER →
  PaginationNav.highlighted
    (PaginationNav.addons_nav currentPage totalPages) = [currentPage] ∧
  PaginationNav.highlighted
    (PaginationNav.workspace_nav currentPage totalPages) = [currentPage].
Proof.
  intros H Hmax.
  destruct (addons_window_bounds currentPage totalPages)
    as (s & e & E & Hs & Hse & He & Hin); [lia..|].
  unfold PaginationNav.addons_nav.
  rewrite highlighted_addons_items, E, filter_eq_interval.
  rewrite highlighted_workspace_nav, workspace_pages_interval,
    filter_eq_interval by lia.
  split; destruct (decide _); try done; lia.
Qed.

Lemma nav_highlights_current_page_witness :
  PaginationNav.highlighted (PaginationNav.addons_nav 7 9) = [7] ∧
  PaginationNav.highlighted (PaginationNav.workspace_nav 7 9) = [7].
Proof.
  apply (nav_highlights_current_page 7 9); unfold Js.MAX_SAFE_INTEGER; lia.
Defined.

(** X4. When [currentPage], a safe integer (at most [2^53 - 1]), lies
    beyond [totalPages >= 1], the addons bar shows the last window,
    [[max 1 (totalPages - 4) .. totalPages]], highlights no button, and
    leaves both PREV and NEXT enabled: PREV leads to [currentPage - 1]
    and NEXT to [totalPages]. *)
Theorem addons_nav_beyond_last_page (currentPage totalPages : Z) :
  1 ≤ totalPages → totalPages < currentPage →
  currentPage ≤ Js.MAX_SAFE_INTEGER →
  AddonsPage.pages currentPage totalPages =
    WindowSpec.interval (Z.max 1 (totalPages - 4)) totalPages ∧
  PaginationNav.highlighted
    (PaginationNav.addons_nav currentPage totalPages) = [] ∧
  head (PaginationNav.addons_nav currentPage totalPages) =
    Some (PaginationNav.PrevButton (currentPage - 1) false) ∧
  last (PaginationNav.addons_nav currentPage totalPages) =
    Some (PaginationNav.NextButton totalPages false).
Proof.
  intros Htp Hgt Hmax.
  assert (E : AddonsPage.pages currentPage totalPages =
              WindowSpec.interval (Z.max 1 (totalPages - 4)) totalPages).
  { rewrite addons_pages_interval by lia. f_equal; lia. }
  split; [exact E|]. unfold PaginationNav.addons_nav. split; [|split].
  - rewrite highlighted_addons_items, E, filter_eq_interval.
    destruct (decide _); [lia|done].
  - unfold PaginationNav.addons_items, AddonsPage.prev.
    rewrite prev_exact by lia. simpl.
    destruct (Z.eqb_spec currentPage 1); [lia|].
    do 2 f_equal. lia.
  - unfold PaginationNav.addons_items, AddonsPage.next.
    rewrite next_exact by lia.
    rewrite !app_assoc, last_snoc.
    destruct (Z.eqb_spec currentPage totalPages); [lia|].
    do 2 f_equal. lia.
Qed.

Lemma addons_nav_beyond_last_page_witness :
  AddonsPage.pages 10 3 = WindowSpec.interval (Z.max 1 (3 - 4)) 3 ∧
  PaginationNav.highlighted (PaginationNav.addons_nav 10 3) = [] ∧
  head (PaginationNav.addons_nav 10 3) =
    Some (PaginationNav.PrevButton (10 - 1) false) ∧
  last (PaginationNav.addons_nav 10 3) =
    Some (PaginationNav.NextButton 3 false).
Proof.
  apply (addons_nav_beyond_last_page 10 3); unfold Js.MAX_SAFE_INTEGER; lia.
Defined.

(** X5. For [1 <= currentPage <= totalPages], with [totalPages] a safe
    integer (at most [2^53 - 1]), the workspace window is the run of
    pages from [max 1 (currentPage - 2)] on: it is not empty, holds
    [currentPage], stays inside [[1, totalPages]], and has between
    [min 3 totalPages] and 5 entries. *)
Theorem workspace_window_in_range (currentPage totalPages : Z) :
  1 ≤ currentPage ≤ totalPages → totalPages ≤ Js.MAX_SAFE_INTEGER →
  let pages := WorkspacePage.pages currentPage totalPages in
  head pages = Some (Z.max 1 (currentPage - 2)) ∧
  contiguous pages ∧
  currentPage ∈ pages ∧
  (∀ x, x ∈ pages → 1 ≤ x ≤ totalPages) ∧
  Z.min 3 totalPages ≤ Z.of_nat (length pages) ≤ 5.
Proof.
  intros H Hmax pages. subst pages. rewrite workspace_pages_interval by lia.
  rewrite head_lookup, interval_head by lia.
  split; [done|]. split; [apply interval_contiguous|].
  split; [apply interval_elem; lia|]. split.
  - intros x Hx. apply interval_elem in Hx. lia.
  - rewrite interval_length. lia.
Qed.

Lemma workspace_window_in_range_witness :
  let pages := WorkspacePage.pages 10 10 in
  head pages = Some (Z.max 1 (10 - 2)) ∧
  contiguous pages ∧
  10 ∈ pages ∧
  (∀ x, x ∈ pages → 1 ≤ x ≤ 10) ∧
  Z.min 3 10 ≤ Z.of_nat (length pages) ≤ 5.
Proof.
  apply (workspace_window_in_range 10 10); unfold Js.MAX_SAFE_INTEGER; lia.
Defined.

(** X6. For safe page numbers, [1 <= currentPage <= 2^53 - 1] and
    [1 <= totalPages <= 2^53 - 1], the workspace window is empty exactly
    when [currentPage - 2 > totalPages]; the bar then consists of [Prev]
    and [Next] alone, [Prev] leading to [currentPage - 1], which is
    itself beyond the last page. *)
Theorem workspace_window_empty_beyond_range (currentPage totalPages : Z) :
  1 ≤ currentPage ≤ Js.MAX_SAFE_INTEGER →
  1 ≤ totalPages ≤ Js.MAX_SAFE_INTEGER →
  (WorkspacePage.pages currentPage totalPages = [] ↔
   totalPages < currentPage - 2) ∧
  (totalPages < currentPage - 2 →
   PaginationNav.workspace_nav currentPage totalPages =
     [PaginationNav.PrevButton (currentPage - 1) false;
      PaginationNav.NextButton totalPages false] ∧
   totalPages < currentPage - 1).
Proof.
  intros Hcp Htp.
  assert (E : WorkspacePage.pages currentPage totalPages = [] ↔
              totalPages < currentPage - 2).
  { rewrite workspace_pages_interval, interval_nil by done. lia. }
  split; [done|]. intros Hgt. split; [|lia].
  unfold PaginationNav.workspace_nav.
  rewrite (proj2 E Hgt), prev_exact, next_exact by done. simpl.
  replace (Z.max 1 (currentPage - 1)) with (currentPage - 1) by lia.
  replace (Z.min totalPages (currentPage + 1)) with totalPages by lia.
  destruct (Z.eqb_spec currentPage 1); [lia|].
  destruct (Z.eqb_spec currentPage totalPages); [lia|]. done.
Qed.

Lemma workspace_window_empty_beyond_range_witness :
  (WorkspacePage.pages 10 3 = [] ↔ 3 < 10 - 2) ∧
  (3 < 10 - 2 →
   PaginationNav.workspace_nav 10 3 =
     [PaginationNav.PrevButton (10 - 1) false;
      PaginationNav.NextButton 3 false] ∧
   3 < 10 - 1).
Proof.
  apply (workspace_window_empty_beyond_range 10 3);
    unfold Js.MAX_SAFE_INTEGER; lia.
Defined.

(** X7. For [1 <= currentPage <= totalPages], with [totalPages] a safe
    integer (at most [2^53 - 1]), in the addons bar and in the workspace
    bar, the targets of PREV and NEXT stay inside [[1, totalPages]], they
    are the neighbouring pages unless the current page is the first or
    the last one, and each button is disabled exactly when its target is
    the current page. *)
Theorem nav_prev_next (currentPage totalPages : Z) :
  1 ≤ currentPage ≤ totalPages → totalPages ≤ Js.MAX_SAFE_INTEGER →
  ∃ prev next,
    (∃ middle,
       PaginationNav.addons_nav currentPage totalPages =
       PaginationNav.PrevButton prev (prev =? currentPage)
       :: middle ++ [PaginationNav.NextButton next (next =? currentPage)]) ∧
    (∃ middle,
       PaginationNav.workspace_nav currentPage totalPages =
       PaginationNav.PrevButton prev (prev =? currentPage)
       :: middle ++ [PaginationNav.NextButton next (next =? currentPage)]) ∧
    1 ≤ prev ≤ totalPages ∧ 1 ≤ next ≤ totalPages ∧
    (prev = currentPage - 1 ∨ currentPage = 1 ∧ prev = 1) ∧
    (next = currentPage + 1 ∨
     currentPage = totalPages ∧ next = totalPages).
Proof.
  intros H Hmax.
  exists (Z.max 1 (currentPage - 1)), (Z.min totalPages (currentPage + 1)).
  assert (P : (Z.max 1 (currentPage - 1) =? currentPage) = (currentPage =? 1)).
  { destruct (Z.eqb_spec (Z.max 1 (currentPage - 1)) currentPage),
      (Z.eqb_spec currentPage 1); try done; lia. }
  assert (N : (Z.min totalPages (currentPage + 1) =? currentPage)
              = (currentPage =? totalPages)).
  { destruct (Z.eqb_spec (Z.min totalPages (currentPage + 1)) currentPage),
      (Z.eqb_spec currentPage totalPages); try done; lia. }
  rewrite P, N. split; [|split; [|lia]]; eexists.
  - unfold PaginationNav.addons_nav, PaginationNav.addons_items,
      AddonsPage.prev, AddonsPage.next.
    rewrite (prev_exact currentPage), (next_exact currentPage) by lia.
    simpl. f_equal. rewrite !app_assoc. reflexivity.
  - unfold PaginationNav.workspace_nav.
    rewrite (prev_exact currentPage), (next_exact currentPage) by lia.
    simpl. f_equal.
Qed.

Lemma nav_prev_next_witness :
  ∃ prev next,
    (∃ middle,
       PaginationNav.addons_nav 1 4 =
       PaginationNav.PrevButton prev (prev =? 1)
       :: middle ++ [PaginationNav.NextButton next (next =? 1)]) ∧
    (∃ middle,
       PaginationNav.workspace_nav 1 4 =
       PaginationNav.PrevButton prev (prev =? 1)
       :: middle ++ [PaginationNav.NextButton next (next =? 1)]) ∧
    1 ≤ prev ≤ 4 ∧ 1 ≤ next ≤ 4 ∧
    (prev = 1 - 1 ∨ 1 = 1 ∧ prev = 1) ∧
    (next = 1 + 1 ∨ 1 = 4 ∧ next = 4).
Proof. apply (nav_prev_next 1 4); unfold Js.MAX_SAFE_INTEGER; lia. Defined.

(** ** Query strings and the pages they select *)

Section Queries.

Lemma get_remove_ne (sp : EditAddonPage.URLSearchParams)
    (name other : Js.jsstring) :
  other ≠ name →
  EditAddonPage.get (Url.remove name sp) other = EditAddonPage.get sp other.
Proof.
  intros Hne. unfold Url.remove.
  induction sp as [|[k v] sp IH]; [done|].
  rewrite filter_cons. simpl.
  destruct (decide (k ≠ name)) as [Hk|Hk]; simpl.
  - by rewrite IH.
  - rewrite IH. apply dec_stable in Hk. subst k.
    by rewrite bool_decide_eq_false_2 by done.
Qed.

Lemma get_set_eq (sp : EditAddonPage.URLSearchParams)
    (name value : Js.jsstring) :
  EditAddonPage.get (Url.set sp name value) name = Some value.
Proof.
  induction sp as [|[k v] sp IH]; simpl.
  - by rewrite bool_decide_eq_true_2.
  - destruct (bool_decide (k = name)) eqn:E; simpl.
    + by rewrite bool_decide_eq_true_2.
    + by rewrite E.
Qed.

Lemma get_set_ne (sp : EditAddonPage.URLSearchParams)
    (name value other : Js.jsstring) :
  other ≠ name →
  EditAddonPage.get (Url.set sp name value) other = EditAddonPage.get sp other.
Proof.
  intros Hne. induction sp as [|[k v] sp IH]; simpl.
  - by rewrite bool_decide_eq_false_2.
  - destruct (bool_decide (k = name)) eqn:E; simpl.
    + apply bool_decide_eq_true in E. subst k.
      rewrite bool_decide_eq_false_2 by done. by apply get_remove_ne.
    + destruct (bool_decide (k = other)); [done|apply IH].
Qed.

(** After [set], one pair is left under the name. *)
Lemma set_single (sp : EditAddonPage.URLSearchParams)
    (name value : Js.jsstring) :
  filter (λ kv, kv.1 = name) (Url.set sp name value) = [(name, value)].
Proof.
  assert (R : ∀ l, filter (λ kv : Js.jsstring * Js.jsstring, kv.1 = name)
                     (Url.remove name l) = []).
  { intros l. unfold Url.remove. induction l as [|[k v] l IH]; [done|].
    rewrite filter_cons. destruct (decide _) as [Hk|Hk]; simpl; [|done].
    rewrite filter_cons. simpl. by rewrite decide_False. }
  unfold EditAddonPage.URLSearchParams in *.
  induction sp as [|[k v] sp IH]; simpl.
  - rewrite filter_cons. simpl. by rewrite decide_True.
  - destruct (bool_decide (k = name)) eqn:E.
    + rewrite filter_cons. simpl. rewrite decide_True by done. by rewrite R.
    + apply bool_decide_eq_false in E.
      rewrite filter_cons. simpl. by rewrite decide_False.
Qed.

(** [set] leaves the pairs under every other name as they are. *)
Lemma filter_remove_ne (name other : Js.jsstring)
    (l : list (Js.jsstring * Js.jsstring)) :
  other ≠ name →
  filter (λ kv, kv.1 = other) (Url.remove name l) =
  filter (λ kv, kv.1 = other) l.
Proof.
  intros Hne. unfold Url.remove. induction l as [|[k v] l IH]; [done|].
  rewrite (filter_cons (λ kv, kv.1 ≠ name)), (filter_cons (λ kv, kv.1 = other)).
  simpl. destruct (decide (k ≠ name)) as [Hk|Hk].
  - rewrite filter_cons. simpl. by rewrite IH.
  - apply dec_stable in Hk. subst k. by rewrite decide_False by done.
Qed.

Lemma filter_set_ne (sp : EditAddonPage.URLSearchParams)
    (name value other : Js.jsstring) :
  other ≠ name →
  filter (λ kv, kv.1 = other) (Url.set sp name value) =
  filter (λ kv, kv.1 = other) sp.
Proof.
  intros Hne. unfold EditAddonPage.URLSearchParams in *.
  induction sp as [|[k v] sp IH]; simpl.
  - rewrite filter_cons. simpl. by rewrite decide_False by done.
  - destruct (bool_decide (k = name)) eqn:E.
    + apply bool_decide_eq_true in E. subst k.
      rewrite !filter_cons. simpl. rewrite !decide_False by done.
      by apply filter_remove_ne.
    + rewrite !filter_cons. simpl. by rewrite IH.
Qed.

Lemma positive_default (n d : Js.number) :
  Js.isFinite d = true → Js.lt Js.zero d = true →
  let r := if Js.isFinite n && Js.lt Js.zero n then n else d in
  Js.isFinite r = true ∧ Js.lt Js.zero r = true.
Proof.
  intros Hf Hp. simpl.
  destruct (Js.isFinite n && Js.lt Js.zero n) eqn:E; [|done].
  by apply andb_true_iff in E.
Qed.

(** Above a threshold is not at or below it. *)
Lemma lt_binary64_not_le (mc : positive) (ec : Z) (v : Js.number) :
  Js.lt (Js.binary64 mc ec) v = true → Js.le v (Js.binary64 mc ec) = false.
Proof.
  destruct v as [s|s| |s m e]; try destruct s; try (vm_compute; congruence).
  change (S754_finite false m e) with (Js.binary64 m e).
  unfold Js.lt, Js.le, SFltb, SFleb. rewrite !SFcompare_binary64.
  destruct (Z.compare_spec ec e), (Z.compare_spec e ec); try lia;
    try congruence.
  destruct (Pos.compare_spec mc m), (Pos.compare_spec m mc); try lia;
    congruence.
Qed.

Lemma safePage_positive (Number : Js.jsstring → Js.number)
    (sp : Workspace.PageSearchParams) :
  Js.isFinite (Workspace.safePage Number sp) = true ∧
  Js.lt Js.zero (Workspace.safePage Number sp) = true.
Proof. unfold Workspace.safePage. by apply positive_default. Qed.

Lemma safeLimit_bounded (Number : Js.jsstring → Js.number)
    (sp : Workspace.PageSearchParams) :
  Js.isFinite (Workspace.safeLimit Number sp) = true ∧
  Js.lt Js.zero (Workspace.safeLimit Number sp) = true ∧
  Js.le (Workspace.safeLimit Number sp) Workspace.lit_100 = true.
Proof.
  unfold Workspace.safeLimit.
  destruct (_ && _ && _) eqn:E; [|done].
  apply andb_true_iff in E as [E ?]. by apply andb_true_iff in E as [? ?].
Qed.

End Queries.

(** X8. Whatever the query string says, the [page] and the [limit] the
    addons list fetches with are finite and positive. A missing
    parameter reads as 1 and 12, a parameter that converts to a finite
    positive number is taken as it is, and any other one (not a number,
    zero, negative, infinite) falls back to 1 and 12. *)
Theorem addons_page_and_limit_positive
    (Number : Js.jsstring → Js.number)
    (sp : EditAddonPage.URLSearchParams) :
  let page := AddonsList.page Number sp in
  let limit := AddonsList.limit Number sp in
  (Js.isFinite page = true ∧ Js.lt Js.zero page = true) ∧
  (Js.isFinite limit = true ∧ Js.lt Js.zero limit = true) ∧
  (EditAddonPage.get sp (Js.str "page") = None → page = AddonsList.lit_1) ∧
  (EditAddonPage.get sp (Js.str "limit") = None → limit = AddonsList.lit_12) ∧
  (∀ s, EditAddonPage.get sp (Js.str "page") = Some s →
        page = if Js.isFinite (Number s) && Js.lt Js.zero (Number s)
               then Number s else AddonsList.lit_1) ∧
  (∀ s, EditAddonPage.get sp (Js.str "limit") = Some s →
        limit = if Js.isFinite (Number s) && Js.lt Js.zero (Number s)
                then Number s else AddonsList.lit_12).
Proof.
  cbv zeta. unfold AddonsList.page, AddonsList.limit.
  split; [by apply positive_default|].
  split; [by apply positive_default|].
  split; [by intros ->|]. split; [by intros ->|].
  split; by intros s ->.
Qed.

(** X9. Whatever the search parameters, [safePage] is finite and
    positive and [safeLimit] is finite, positive and at most 100. A limit
    above 100 is not cut down to 100: it is replaced by the default 10. *)
Theorem workspace_safe_page_and_limit
    (Number : Js.jsstring → Js.number)
    (sp : Workspace.PageSearchParams) :
  let safePage := Workspace.safePage Number sp in
  let safeLimit := Workspace.safeLimit Number sp in
  (Js.isFinite safePage = true ∧ Js.lt Js.zero safePage = true) ∧
  (Js.isFinite safeLimit = true ∧ Js.lt Js.zero safeLimit = true ∧
   Js.le safeLimit Workspace.lit_100 = true) ∧
  (∀ s, Workspace.limit sp = Some s →
        Js.lt Workspace.lit_100 (Number s) = true →
        safeLimit = Workspace.lit_10).
Proof.
  cbv zeta. split; [apply safePage_positive|].
  split; [apply safeLimit_bounded|].
  unfold Workspace.safeLimit.
  - intros s -> Hbig. apply lt_binary64_not_le in Hbig.
    unfold Workspace.lit_100. rewrite Hbig. by rewrite andb_false_r.
Qed.

(** X10. [goToPage(p)] navigates to the current query with [page] set to
    [String(p)], and [onChangeLimit(n)] to the current query with [limit]
    set to [String(n)] and [page] reset to ["1"]. Each rewritten name
    occurs once in the new query, [page] after [goToPage], [page] and
    [limit] after [onChangeLimit]; every other parameter reads as before,
    and the pairs under every other name are the same pairs in the same
    order. *)
Theorem navigation_rewrites_query
    (String : Js.number → Js.jsstring)
    (sp : EditAddonPage.URLSearchParams) (p newLimit : Js.number) :
  let to_page := AddonsList.goToPage String sp p in
  let to_limit := AddonsList.onChangeLimit String sp newLimit in
  let under (name : Js.jsstring) (q : list (Js.jsstring * Js.jsstring)) :=
    filter (λ kv, kv.1 = name) q in
  let count (name : Js.jsstring) (q : list (Js.jsstring * Js.jsstring)) :=
    length (filter (λ kv, kv.1 = name) q) in
  (EditAddonPage.get to_page (Js.str "page") = Some (String p) ∧
   count (Js.str "page") to_page = 1%nat ∧
   (∀ name, name ≠ Js.str "page" →
            EditAddonPage.get to_page name = EditAddonPage.get sp name) ∧
   (∀ name, name ≠ Js.str "page" → under name to_page = under name sp)) ∧
  (EditAddonPage.get to_limit (Js.str "limit") = Some (String newLimit) ∧
   EditAddonPage.get to_limit (Js.str "page") = Some (Js.str "1") ∧
   count (Js.str "page") to_limit = 1%nat ∧
   count (Js.str "limit") to_limit = 1%nat ∧
   (∀ name, name ≠ Js.str "page" → name ≠ Js.str "limit" →
            EditAddonPage.get to_limit name = EditAddonPage.get sp name) ∧
   (∀ name, name ≠ Js.str "page" → name ≠ Js.str "limit" →
            under name to_limit = under name sp)).
Proof.
  cbv zeta. unfold AddonsList.goToPage, AddonsList.onChangeLimit.
  repeat split.
  - apply get_set_eq.
  - by rewrite set_single.
  - intros name Hne. by apply get_set_ne.
  - intros name Hne. by apply filter_set_ne.
  - rewrite get_set_ne by done. apply get_set_eq.
  - apply get_set_eq.
  - by rewrite set_single.
  - rewrite filter_set_ne by done. by rewrite set_single.
  - intros name Hp Hl. by rewrite !get_set_ne.
  - intros name Hp Hl. by rewrite !filter_set_ne.
Qed.

(** X11. When [Number(String(p)) = p] for a finite positive page [p],
    the page read back from the query that [goToPage(p)] navigates to is
    [p], and the limit is the one of the current query. *)
Theorem goToPage_then_page
    (Number : Js.jsstring → Js.number) (String : Js.number → Js.jsstring)
    (sp : EditAddonPage.URLSearchParams) (p : Js.number) :
  Number (String p) = p →
  Js.isFinite p = true → Js.lt Js.zero p = true →
  AddonsList.page Number (AddonsList.goToPage String sp p) = p ∧
  AddonsList.limit Number (AddonsList.goToPage String sp p) =
    AddonsList.limit Number sp.
Proof.
  intros Hround Hfin Hpos. unfold AddonsList.page, AddonsList.limit,
    AddonsList.goToPage.
  rewrite get_set_eq, Hround, Hfin, Hpos. split; [done|].
  by rewrite get_set_ne.
Qed.

Lemma goToPage_then_page_witness :
  AddonsList.page Number_small
    (AddonsList.goToPage String_small
       [(Js.str "page", Js.str "1"); (Js.str "limit", Js.str "12")]
       (Js.binary64 0x14000000000000 (-50))) =
    Js.binary64 0x14000000000000 (-50) ∧
  AddonsList.limit Number_small
    (AddonsList.goToPage String_small
       [(Js.str "page", Js.str "1"); (Js.str "limit", Js.str "12")]
       (Js.binary64 0x14000000000000 (-50))) =
    AddonsList.limit Number_small
      [(Js.str "page", Js.str "1"); (Js.str "limit", Js.str "12")].
Proof.
  apply (goToPage_then_page Number_small String_small
           [(Js.str "page", Js.str "1"); (Js.str "limit", Js.str "12")]
           (Js.binary64 0x14000000000000 (-50)));
    vm_compute; reflexivity.
Defined.

Section EditLinks.

Lemma or_default_nil (x : Js.jsstring) : Js.or_default (Some x) [] = x.
Proof. by destruct x. Qed.

Lemma accepts_value_spec (v : Js.number) :
  negb (Js.isFinite v) || Js.lt v Js.zero = false ↔
  Js.isFinite v = true ∧ Js.ge v Js.zero = true.
Proof.
  destruct v as [s|s| |s m e]; try destruct s; vm_compute;
    intuition congruence.
Qed.

(** The trace of the edit form's [submit]: the request, when there is
    one, is the second effect and carries the cells as they stand. *)
Lemma edit_submit_trace
    (Number : Js.jsstring → Js.number)
    (respond : EditAddonPage.Effect → Js.Response)
    (sp : EditAddonPage.URLSearchParams) (st : EditAddonPage.State) :
  let result := EditAddonPage.submit_form Number respond sp st in
  let request :=
    EditAddonPage.ApiPatch (Js.str "/api/addons/edit") (EditAddonPage.id sp)
      (EditAddonPage.title st) (EditAddonPage.description st)
      (Number (EditAddonPage.value st)) (EditAddonPage.status st) in
  (result.2 = [EditAddonPage.PreventDefault] ∧
   EditAddonPage.saving result.1 = EditAddonPage.saving st ∧
   (EditAddonPage.id sp = [] ∧
    EditAddonPage.error result.1 = Some (Js.str "INVALID_ADDON_ID") ∨
    EditAddonPage.id sp ≠ [] ∧
    ¬ (Js.isFinite (Number (EditAddonPage.value st)) = true ∧
       Js.ge (Number (EditAddonPage.value st)) Js.zero = true) ∧
    EditAddonPage.error result.1 =
      Some (Js.str "VALUE_MUST_BE_NON_NEGATIVE_NUMBER"))) ∨
  (EditAddonPage.id sp ≠ [] ∧
   Js.isFinite (Number (EditAddonPage.value st)) = true ∧
   Js.ge (Number (EditAddonPage.value st)) Js.zero = true ∧
   EditAddonPage.saving result.1 = false ∧
   (respond request = Js.Resolved ∧
    result.2 = [EditAddonPage.PreventDefault; request;
                EditAddonPage.SetTimeout 1000 (Js.str "/addons")] ∧
    EditAddonPage.error result.1 = None ∨
    ((∃ message, respond request = Js.Rejected message ∧
        EditAddonPage.error result.1 =
          Some (Js.or_default message (Js.str "UPDATE_FAILED"))) ∨
     respond request = Js.RejectedNullish ∧
     EditAddonPage.error result.1 = None) ∧
    result.2 = [EditAddonPage.PreventDefault; request])).
Proof.
  cbv zeta.
  destruct (decide (EditAddonPage.id sp = [])) as [Hid|Hid].
  { left. unfold EditAddonPage.submit_form, EditAddonPage.submit.
    rewrite Hid. simpl. auto. }
  destruct (negb (Js.isFinite (Number (EditAddonPage.value st)))
            || Js.lt (Number (EditAddonPage.value st)) Js.zero) eqn:V.
  { left. unfold EditAddonPage.submit_form, EditAddonPage.submit.
    destruct (Js.falsy (EditAddonPage.id sp)) eqn:F.
    { apply falsy_nil in F. done. }
    rewrite V. apply rejects_value_spec in V. simpl. auto 10. }
  assert (Hv : Js.isFinite (Number (EditAddonPage.value st)) = true ∧
               Js.ge (Number (EditAddonPage.value st)) Js.zero = true).
  { by apply accepts_value_spec. }
  destruct Hv as [Hf Hg]. right.
  pose proof (edit_submit_sends Number respond sp st Hid Hf Hg) as E.
  cbv zeta in E. rewrite E.
  destruct (respond _) as [|message|]; simpl; repeat split; eauto 10.
Qed.

End EditLinks.

Section EditForm.

Lemma hasChanges_mount (sp : EditAddonPage.URLSearchParams) :
  EditAddonPage.hasChanges sp (EditAddonPage.mount sp) = false.
Proof.
  unfold EditAddonPage.hasChanges, EditAddonPage.mount. simpl.
  by rewrite !(proj2 (strict_neq_false _ _)) by done.
Qed.

(** [submit] writes to the [error] and [saving] cells only. *)
Lemma edit_submit_keeps_cells
    (Number : Js.jsstring → Js.number)
    (respond : EditAddonPage.Effect → Js.Response)
    (sp : EditAddonPage.URLSearchParams) (st : EditAddonPage.State) :
  let st' := (EditAddonPage.submit_form Number respond sp st).1 in
  EditAddonPage.title st' = EditAddonPage.title st ∧
  EditAddonPage.description st' = EditAddonPage.description st ∧
  EditAddonPage.value st' = EditAddonPage.value st ∧
  EditAddonPage.status st' = EditAddonPage.status st.
Proof.
  cbv zeta. unfold EditAddonPage.submit_form, EditAddonPage.submit.
  destruct (Js.falsy (EditAddonPage.id sp)); [done|].
  destruct (negb _ || _); [done|].
  unfold Js.run, EditAddonPage.apiClient_patch. cbn.
  by destruct (respond _).
Qed.

Lemma or_default_nonempty (x : option Js.jsstring) (d : Js.jsstring) :
  d ≠ [] → Js.or_default x d ≠ [].
Proof. intros Hd. by destruct x as [[|c s]|]. Qed.

End EditForm.

(** X12. The query of the [EDIT] link of the first addons page carries
    the addon into the edit form: on mount the id, title, description
    and [String(value)] are the addon's, the status is the addon's unless
    that is empty (then ["ACTIVE"]), and the form starts without
    changes. *)
Theorem edit_link_round_trip
    (String : Js.number → Js.jsstring) (addon : AddonsList.Addon) :
  let sp := AddonsList.edit_query String addon in
  let st := EditAddonPage.mount sp in
  EditAddonPage.id sp = AddonsList._id addon ∧
  EditAddonPage.title st = AddonsList.title addon ∧
  EditAddonPage.description st = AddonsList.description addon ∧
  EditAddonPage.value st = String (AddonsList.value addon) ∧
  EditAddonPage.status st =
    Js.or_default (Some (AddonsList.status addon)) (Js.str "ACTIVE") ∧
  EditAddonPage.hasChanges sp st = false.
Proof.
  cbv zeta. repeat split; try apply hasChanges_mount;
    destruct addon as [i t d v s pid c u]; vm_compute;
    repeat match goal with
           | |- context [match ?x with _ => _ end] => destruct x
           end; reflexivity.
Qed.

(** X13. The [EDIT] link of the second addons page carries no status:
    the edit form it opens mounts with status ["ACTIVE"] whatever the
    addon's status, and as long as the status select is left alone every
    PATCH request the form sends says ["ACTIVE"]. *)
Theorem edit_link_client_drops_status
    (String : Js.number → Js.jsstring) (addon : AddonsList.Addon) :
  let sp := AddonsList.edit_query_client String addon in
  EditAddonPage.id sp = AddonsList._id addon ∧
  EditAddonPage.title (EditAddonPage.mount sp) = AddonsList.title addon ∧
  EditAddonPage.status (EditAddonPage.mount sp) = Js.str "ACTIVE" ∧
  ∀ (Number : Js.jsstring → Js.number)
    (respond : EditAddonPage.Effect → Js.Response)
    (st : EditAddonPage.State) url id title description value status,
    EditAddonPage.status st = EditAddonPage.status (EditAddonPage.mount sp) →
    EditAddonPage.ApiPatch url id title description value status
      ∈ (EditAddonPage.submit_form Number respond sp st).2 →
    status = Js.str "ACTIVE".
Proof.
  cbv zeta.
  assert (S : EditAddonPage.status
                (EditAddonPage.mount (AddonsList.edit_query_client String addon))
              = Js.str "ACTIVE") by reflexivity.
  split; [|split; [|split; [exact S|]]].
  - destruct addon as [i t d v s pid c u]; vm_compute; by destruct i.
  - destruct addon as [i t d v s pid c u]; vm_compute; by destruct t.
  - intros Number respond st url id title description value status Hst Hin.
    rewrite S in Hst.
    destruct (edit_submit_trace Number respond
                (AddonsList.edit_query_client String addon) st)
      as [(T & _)|(_ & _ & _ & _ & [(_ & T & _)|(_ & T)])];
      rewrite T in Hin; rewrite !elem_of_cons, elem_of_nil in Hin;
      destruct Hin as [Hin|Hin]; try discriminate;
      repeat (destruct Hin as [Hin|Hin]; try discriminate); try done;
      injection Hin as _ _ _ _ _ ->; done.
Qed.

(** X14. The edit form stops before the network when the id parameter
    is missing or empty, or when the value is not a finite non-negative
    number: the only effect is [preventDefault], the message is
    [INVALID_ADDON_ID] in the first case and
    [VALUE_MUST_BE_NON_NEGATIVE_NUMBER] otherwise, and the other cells
    are as before. *)
Theorem edit_validation_blocks_request
    (Number : Js.jsstring → Js.number)
    (respond : EditAddonPage.Effect → Js.Response)
    (sp : EditAddonPage.URLSearchParams) (st : EditAddonPage.State) :
  EditAddonPage.id sp = [] ∨
  ¬ (Js.isFinite (Number (EditAddonPage.value st)) = true ∧
     Js.ge (Number (EditAddonPage.value st)) Js.zero = true) →
  EditAddonPage.submit_form Number respond sp st =
    ({| EditAddonPage.title := EditAddonPage.title st;
        EditAddonPage.description := EditAddonPage.description st;
        EditAddonPage.value := EditAddonPage.value st;
        EditAddonPage.status := EditAddonPage.status st;
        EditAddonPage.error :=
          Some (if bool_decide (EditAddonPage.id sp = [])
                then Js.str "INVALID_ADDON_ID"
                else Js.str "VALUE_MUST_BE_NON_NEGATIVE_NUMBER");
        EditAddonPage.saving := EditAddonPage.saving st |},
     [EditAddonPage.PreventDefault]).
Proof.
  intros H. unfold EditAddonPage.submit_form, EditAddonPage.submit.
  destruct (Js.falsy (EditAddonPage.id sp)) eqn:F.
  { apply falsy_nil in F. by rewrite bool_decide_eq_true_2. }
  assert (Hid : EditAddonPage.id sp ≠ []).
  { intros E. apply falsy_nil in E. congruence. }
  rewrite bool_decide_eq_false_2 by done.
  destruct H as [H|H]; [done|].
  apply rejects_value_spec in H. by rewrite H.
Qed.

Lemma edit_validation_blocks_request_witness :
  EditAddonPage.submit_form Number_sample (λ _, Js.Resolved)
    [(Js.str "title", Js.str "Staff")]
    {| EditAddonPage.title := Js.str "Staff";
       EditAddonPage.description := [];
       EditAddonPage.value := Js.str "5";
       EditAddonPage.status := Js.str "ACTIVE";
       EditAddonPage.error := None;
       EditAddonPage.saving := false |} =
    ({| EditAddonPage.title := Js.str "Staff";
        EditAddonPage.description := [];
        EditAddonPage.value := Js.str "5";
        EditAddonPage.status := Js.str "ACTIVE";
        EditAddonPage.error :=
          Some (if bool_decide
                     (EditAddonPage.id [(Js.str "title", Js.str "Staff")] = [])
                then Js.str "INVALID_ADDON_ID"
                else Js.str "VALUE_MUST_BE_NON_NEGATIVE_NUMBER");
        EditAddonPage.saving := false |},
     [EditAddonPage.PreventDefault]).
Proof.
  apply (edit_validation_blocks_request Number_sample (λ _, Js.Resolved)
           [(Js.str "title", Js.str "Staff")]
           {| EditAddonPage.title := Js.str "Staff";
              EditAddonPage.description := [];
              EditAddonPage.value := Js.str "5";
              EditAddonPage.status := Js.str "ACTIVE";
              EditAddonPage.error := None;
              EditAddonPage.saving := false |}).
  left. reflexivity.
Defined.

(** X15. Whatever the response, the edit form's [submit] leaves the
    title, description, value and status cells alone and sends at most
    one request; a request it sends goes to [/api/addons/edit] with a
    non-empty id, a finite non-negative value and the cells as they
    stand, and once it has been sent [saving] is false again and an error
    message, if any, is not empty. *)
Theorem edit_submit_safe
    (Number : Js.jsstring → Js.number)
    (respond : EditAddonPage.Effect → Js.Response)
    (sp : EditAddonPage.URLSearchParams) (st : EditAddonPage.State) :
  let result := EditAddonPage.submit_form Number respond sp st in
  (EditAddonPage.title result.1 = EditAddonPage.title st ∧
   EditAddonPage.description result.1 = EditAddonPage.description st ∧
   EditAddonPage.value result.1 = EditAddonPage.value st ∧
   EditAddonPage.status result.1 = EditAddonPage.status st) ∧
  (∀ url id title description value status,
     EditAddonPage.ApiPatch url id title description value status ∈ result.2 →
     url = Js.str "/api/addons/edit" ∧
     id = EditAddonPage.id sp ∧ id ≠ [] ∧
     title = EditAddonPage.title st ∧
     description = EditAddonPage.description st ∧
     status = EditAddonPage.status st ∧
     value = Number (EditAddonPage.value st) ∧
     Js.isFinite value = true ∧ Js.ge value Js.zero = true ∧
     EditAddonPage.saving result.1 = false ∧
     EditAddonPage.error result.1 ≠ Some []) ∧
  (length (filter (λ e, Requests.is_patch e = true) result.2) ≤ 1)%nat.
Proof.
  cbv zeta. split; [apply edit_submit_keeps_cells|].
  destruct (edit_submit_trace Number respond sp st)
    as [(T & _)|(Hid & Hf & Hg & Hs &
                 [(_ & T & He)|([(m & _ & He)|(_ & He)] & T)])];
    rewrite T; (split; [|vm_compute; lia]);
    intros url id title description value status Hin;
    rewrite !elem_of_cons, elem_of_nil in Hin;
    repeat (destruct Hin as [Hin|Hin]; try discriminate); try done;
    injection Hin as -> -> -> -> -> ->; repeat split; try done;
    rewrite He; try done.
  intros [= E]. by apply or_default_nonempty in E.
Qed.

Section CreateForm.

(** The ways [onSubmit] of the create form ends. *)
Lemma create_submit_cases
    (Number : Js.jsstring → Js.number)
    (respond : CreateAddons.Effect → Js.Response)
    (st : CreateAddons.State) :
  let form := CreateAddons.form st in
  let result := CreateAddons.submit_form Number respond st in
  let title := Js.trim (CreateAddons.title form) in
  let description := Js.trim (CreateAddons.description form) in
  let valueNum := Number (CreateAddons.value form) in
  let request :=
    CreateAddons.ApiPost (Js.str "/api/addons/create") title description
      valueNum in
  CreateAddons.form result.1 = form ∧
  ((result.2 = [CreateAddons.PreventDefault] ∧
    CreateAddons.success result.1 = None ∧
    CreateAddons.submitting result.1 = CreateAddons.submitting st ∧
    (title = [] ∨ description = [] ∨
     ¬ (Js.isFinite valueNum = true ∧ Js.ge valueNum Js.zero = true)) ∧
    ∃ message, CreateAddons.error result.1 = Some message ∧ message ≠ []) ∨
   (title ≠ [] ∧ description ≠ [] ∧
    Js.isFinite valueNum = true ∧ Js.ge valueNum Js.zero = true ∧
    CreateAddons.submitting result.1 = false ∧
    (respond request = Js.Resolved ∧
     result.2 = [CreateAddons.PreventDefault; request;
                 CreateAddons.SetTimeout 1500 (Js.str "/addons")] ∧
     CreateAddons.error result.1 = None ∧
     CreateAddons.success result.1 =
       Some (Js.str "ADDON_CREATED_SUCCESSFULLY") ∨
     result.2 = [CreateAddons.PreventDefault; request] ∧
     CreateAddons.success result.1 = None ∧
     ∃ message,
       (respond request = Js.Rejected message ∨
        respond request = Js.RejectedNullish ∧ message = None) ∧
       CreateAddons.error result.1 =
         Some (Js.or_default message (Js.str "FAILED_TO_CREATE_ADDON"))))).
Proof.
  cbv zeta.
  destruct (Js.falsy (Js.trim (CreateAddons.title (CreateAddons.form st))))
    eqn:Ft.
  { unfold CreateAddons.submit_form, CreateAddons.onSubmit. rewrite Ft.
    apply falsy_nil in Ft. split; [done|]. left.
    repeat split; auto. by eexists. }
  destruct (Js.falsy (Js.trim (CreateAddons.description (CreateAddons.form st))))
    eqn:Fd.
  { unfold CreateAddons.submit_form, CreateAddons.onSubmit. rewrite Ft, Fd.
    apply falsy_nil in Fd. split; [done|]. left.
    repeat split; auto. by eexists. }
  destruct (negb (Js.isFinite (Number (CreateAddons.value (CreateAddons.form st))))
            || Js.lt (Number (CreateAddons.value (CreateAddons.form st))) Js.zero)
    eqn:V.
  { unfold CreateAddons.submit_form, CreateAddons.onSubmit. rewrite Ft, Fd, V.
    apply rejects_value_spec in V. split; [done|]. left.
    repeat split; auto. by eexists. }
  apply accepts_value_spec in V as [Hf Hg].
  assert (Ht : Js.trim (CreateAddons.title (CreateAddons.form st)) ≠ []).
  { intros E. apply falsy_nil in E. congruence. }
  assert (Hd : Js.trim (CreateAddons.description (CreateAddons.form st)) ≠ []).
  { intros E. apply falsy_nil in E. congruence. }
  pose proof (create_submit_sends Number respond st Ht Hd Hf Hg) as E.
  cbv zeta in E. rewrite E.
  destruct (respond _) as [|message|]; simpl; (split; [done|]); right;
    repeat split; auto.
  - right. repeat split; auto. exists message. auto.
  - right. repeat split; auto. exists None. auto.
Qed.

End CreateForm.

(** X16. Every submit of the create form ends in exactly one of two
    ways: with the success message, no error and the redirect to
    [/addons] scheduled after 1500 ms as the last effect, or with a
    non-empty error message, no success message and no redirect. The
    form fields are never touched. *)
Theorem create_submit_outcome
    (Number : Js.jsstring → Js.number)
    (respond : CreateAddons.Effect → Js.Response)
    (st : CreateAddons.State) :
  let result := CreateAddons.submit_form Number respond st in
  CreateAddons.form result.1 = CreateAddons.form st ∧
  (CreateAddons.success result.1 = Some (Js.str "ADDON_CREATED_SUCCESSFULLY") ∧
   CreateAddons.error result.1 = None ∧
   last result.2 = Some (CreateAddons.SetTimeout 1500 (Js.str "/addons")) ∨
   CreateAddons.success result.1 = None ∧
   (∃ message, CreateAddons.error result.1 = Some message ∧ message ≠ []) ∧
   filter (λ e, Requests.is_redirect e = true) result.2 = []).
Proof.
  cbv zeta.
  destruct (create_submit_cases Number respond st)
    as (Hform & [(T & Hs & _ & _ & He)
                |(_ & _ & _ & _ & _ & [(_ & T & He & Hs)
                                      |(T & Hs & m & _ & He)])]);
    (split; [exact Hform|]); rewrite T.
  - right. repeat split; auto.
  - left. repeat split; auto.
  - right. repeat split; auto.
    eexists. split; [exact He|]. by apply or_default_nonempty.
Qed.

(** X17. Whatever the form holds, a submit of the create form sends at
    most one request, and a request it sends goes to
    [/api/addons/create] with the trimmed title and description, both
    non-empty, and a finite non-negative value. *)
Theorem create_requests_are_valid
    (Number : Js.jsstring → Js.number)
    (respond : CreateAddons.Effect → Js.Response)
    (st : CreateAddons.State) :
  let result := CreateAddons.submit_form Number respond st in
  (∀ url title description value,
     CreateAddons.ApiPost url title description value ∈ result.2 →
     url = Js.str "/api/addons/create" ∧
     title = Js.trim (CreateAddons.title (CreateAddons.form st)) ∧
     title ≠ [] ∧
     description = Js.trim (CreateAddons.description (CreateAddons.form st)) ∧
     description ≠ [] ∧
     value = Number (CreateAddons.value (CreateAddons.form st)) ∧
     Js.isFinite value = true ∧ Js.ge value Js.zero = true) ∧
  (length (filter (λ e, Requests.is_post e = true) result.2) ≤ 1)%nat.
Proof.
  cbv zeta.
  destruct (create_submit_cases Number respond st)
    as (_ & [(T & _)
            |(Ht & Hd & Hf & Hg & _ & [(_ & T & _)|(T & _)])]);
    rewrite T; (split; [|vm_compute; lia]);
    intros url title description value Hin;
    rewrite !elem_of_cons, elem_of_nil in Hin;
    repeat (destruct Hin as [Hin|Hin]; try discriminate); try done;
    injection Hin as -> -> -> ->; done.
Qed.

(** X18. [onChange(key, v)] of the create form stores [v] in the field
    [key], leaves the other two fields, the success message and the
    [submitting] flag alone, clears the error message and has no outside
    effect; edits of two different fields commute. *)
Theorem create_onChange_updates_one_field
    (key : CreateAddonsFields.Key) (v : Js.jsstring)
    (st : CreateAddons.State) :
  let result := Js.run (CreateAddonsFields.onChange key v) st in
  CreateAddonsFields.field key (CreateAddons.form result.1) = v ∧
  (∀ other, other ≠ key →
     CreateAddonsFields.field other (CreateAddons.form result.1) =
     CreateAddonsFields.field other (CreateAddons.form st)) ∧
  CreateAddons.error result.1 = None ∧
  CreateAddons.success result.1 = CreateAddons.success st ∧
  CreateAddons.submitting result.1 = CreateAddons.submitting st ∧
  result.2 = [] ∧
  (∀ key' v', key' ≠ key →
     (Js.run (CreateAddonsFields.onChange key' v') result.1).1 =
     (Js.run (CreateAddonsFields.onChange key v)
        (Js.run (CreateAddonsFields.onChange key' v') st).1).1).
Proof.
  cbv zeta. repeat split.
  - by destruct key.
  - intros other Hne. by destruct key, other.
  - intros key' v' Hne. by destruct key, key'.
Qed.

(** ** Fetching *)

(** X19. [fetchData] of the addons list issues one GET request for the
    page and limit of the query and always ends with [loading] false. On
    a response the list and the pagination are replaced and the error is
    cleared; on a failure the previous list and pagination stay and the
    error message is not empty. *)
Theorem addons_fetchData_outcome
    (Number : Js.jsstring → Js.number) (String : Js.number → Js.jsstring)
    (respond : AddonsList.Effect → AddonsList.GetResult)
    (sp : EditAddonPage.URLSearchParams) (st : AddonsList.State) :
  let request := AddonsList.ApiGet (AddonsList.fetch_url Number String sp) in
  let result := Js.run (AddonsList.fetchData Number String respond sp) st in
  result.2 = [request] ∧
  AddonsList.loading result.1 = false ∧
  match respond request with
  | AddonsList.GetResolved a p =>
      AddonsList.addons result.1 = a ∧
      AddonsList.pagination result.1 = Some p ∧
      AddonsList.err result.1 = None
  | AddonsList.GetRejected message =>
      AddonsList.addons result.1 = AddonsList.addons st ∧
      AddonsList.pagination result.1 = AddonsList.pagination st ∧
      AddonsList.err result.1 =
        Some (Js.or_default message (Js.str "Failed to load add-ons")) ∧
      Js.or_default message (Js.str "Failed to load add-ons") ≠ []
  end.
Proof.
  cbv zeta. unfold AddonsList.fetchData, Js.run. cbn.
  destruct (respond _) as [a p|message]; cbn; repeat split.
  by apply or_default_nonempty.
Qed.

Section ListPanels.

(** The block a state of the addons list shows. *)
Lemma render_single (st : AddonsList.State) :
  AddonsList.render st =
  [ if AddonsList.loading st then AddonsList.GridSkeleton
    else match Js.or_default (AddonsList.err st) [] with
         | c :: s => AddonsList.ErrorPanel (c :: s)
         | [] =>
             match AddonsList.addons st with
             | [] => AddonsList.EmptyPanel
             | a :: l =>
                 AddonsList.Grid (a :: l)
                   match AddonsList.pagination st with
                   | Some p =>
                       if 1 <? AddonsPageClient.totalPages p
                       then Some (PaginationNav.addons_nav
                                    (AddonsPageClient.currentPage p)
                                    (AddonsPageClient.totalPages p))
                       else None
                   | None => None
                   end
             end
         end ].
Proof.
  unfold AddonsList.render.
  destruct st as [addons pagination loading err]. simpl.
  destruct loading, err as [[|c s]|], addons as [|a l]; reflexivity.
Qed.

End ListPanels.

(** X20. Every state of the addons list shows exactly one block below
    the header: the skeleton while loading, else the error panel when
    there is a non-empty error, else the empty notice or the grid. The
    grid lists the addons of the state, and it carries a pagination bar
    exactly when the pagination is there and has more than one page. *)
Theorem addons_render_one_panel (st : AddonsList.State) :
  length (AddonsList.render st) = 1%nat ∧
  (AddonsList.GridSkeleton ∈ AddonsList.render st ↔
   AddonsList.loading st = true) ∧
  (∀ message, AddonsList.ErrorPanel message ∈ AddonsList.render st ↔
     AddonsList.loading st = false ∧ message ≠ [] ∧
     AddonsList.err st = Some message) ∧
  (AddonsList.EmptyPanel ∈ AddonsList.render st →
   AddonsList.addons st = []) ∧
  (∀ cards nav, AddonsList.Grid cards nav ∈ AddonsList.render st →
     AddonsList.loading st = false ∧
     cards = AddonsList.addons st ∧ cards ≠ [] ∧
     (is_Some nav ↔
      ∃ p, AddonsList.pagination st = Some p ∧
           1 < AddonsPageClient.totalPages p)).
Proof.
  rewrite render_single. split; [done|].
  destruct st as [addons pagination loading err]. simpl.
  split; [|split; [|split]].
  - rewrite list_elem_of_singleton.
    destruct loading, err as [[|c s]|], addons as [|a l]; simpl;
      split; intros; (done || discriminate).
  - intros message. rewrite list_elem_of_singleton.
    destruct loading, err as [[|c s]|], addons as [|a l]; simpl;
      split; try (intros [? [? ?]]); try (intros ?);
      try discriminate; try done; try congruence;
      match goal with H : _ = _ |- _ => injection H as -> end; done.
  - rewrite list_elem_of_singleton.
    destruct loading, err as [[|c s]|], addons as [|a l]; simpl;
      intros; (done || discriminate).
  - intros cards nav. rewrite list_elem_of_singleton.
    destruct loading, err as [[|c s]|], addons as [|a l]; simpl;
      intros H; try discriminate; injection H as -> ->;
      (split; [done|]); (split; [done|]); (split; [done|]);
      (destruct pagination as [p|];
       [destruct (Z.ltb_spec 1 (AddonsPageClient.totalPages p))|]);
      split;
      first [ by (intros _; exists p)
            | by (intros _; eexists)
            | by (intros [? ?]; discriminate)
            | by (intros (? & [= <-] & ?); lia)
            | by intros (? & [=] & ?) ].
Qed.

(** X21. The status container sends one GET [/status]. If the component
    was torn down before the request settled, nothing is written
    afterwards: the cells are as [run] left them before waiting
    ([loading] true, [error] cleared). Otherwise [loading] ends false,
    and the component shows the five statuses of the response, or, on a
    failure, an error box with a non-empty message. *)
Theorem status_run_outcome
    (parseFloat : Js.jsstring → Js.number)
    (String toFixed0 : Js.number → Js.jsstring)
    (respond : StatusPanel.Effect → StatusPanel.GetResult)
    (st : StatusPanel.State) :
  let request := StatusPanel.ApiGet (Js.str "/status") in
  let finish dead :=
    Js.run (StatusPanel.run parseFloat String toFixed0 respond dead) st in
  (finish true).2 = [request] ∧ (finish false).2 = [request] ∧
  (finish true).1 =
    {| StatusPanel.statuses := StatusPanel.statuses st;
       StatusPanel.error := None;
       StatusPanel.loading := true |} ∧
  StatusPanel.view (finish true).1 = StatusPanel.Fetching ∧
  StatusPanel.loading (finish false).1 = false ∧
  match respond request with
  | StatusPanel.GetResolved data =>
      StatusPanel.view (finish false).1 =
        StatusPanel.Panel
          (SecurityStatusContainer.toStatuses parseFloat String toFixed0 data)
  | StatusPanel.GetRejected message =>
      StatusPanel.statuses (finish false).1 = StatusPanel.statuses st ∧
      StatusPanel.view (finish false).1 =
        StatusPanel.ErrorBox
          (Js.or_default message (Js.str "Failed to fetch status")) ∧
      Js.or_default message (Js.str "Failed to fetch status") ≠ []
  end.
Proof.
  cbv zeta. unfold StatusPanel.run, Js.run.
  destruct (respond (StatusPanel.ApiGet (Js.str "/status")))
    as [data|message] eqn:R;
    (split; [reflexivity|]); (split; [reflexivity|]);
    (split; [reflexivity|]); (split; [reflexivity|]);
    (split; [reflexivity|]).
  - reflexivity.
  - assert (N : Js.or_default message (Js.str "Failed to fetch status") ≠ [])
      by by apply or_default_nonempty.
    split; [reflexivity|]. split; [|done].
    change (StatusPanel.view
              {| StatusPanel.statuses := StatusPanel.statuses st;
                 StatusPanel.error :=
                   Some (Js.or_default message
                           (Js.str "Failed to fetch status"));
                 StatusPanel.loading := false |} =
            StatusPanel.ErrorBox
              (Js.or_default message (Js.str "Failed to fetch status"))).
    unfold StatusPanel.view.
    cbn [StatusPanel.loading StatusPanel.error StatusPanel.statuses].
    rewrite or_default_nil.
    by destruct (Js.or_default message (Js.str "Failed to fetch status")).
Qed.

Section FetchProperties.

(** How a call of [fetchProperties] ends. *)
Lemma fetchProperties_outcome
    (String : Z → Js.jsstring)
    (respond : Workspace.Effect → Workspace.FetchResult)
    (page limit : Js.number) :
  (Workspace.call (Workspace.fetchProperties String respond page limit)).1 =
  match respond (Workspace.Fetch Workspace.API_URL page limit) with
  | Workspace.FetchRejected message =>
      Workspace.ThrewError
        (Js.str "Network error: " ++ Js.or_default message (Js.str "unknown"))
  | Workspace.FetchResolved res =>
      if negb (Workspace.ok res) then
        Workspace.ThrewError
          (Js.str "API " ++ String (Workspace.res_status res) ++ Js.str ": "
           ++ Js.or_default (Some (Js.or_default (Workspace.text res) []))
                (Js.str "failed to load properties"))
      else
        match Workspace.json res with
        | Workspace.JsonRejected reason => Workspace.ThrewRejection reason
        | Workspace.JsonNull => Workspace.ThrewTypeError
        | Workspace.JsonValue status (Some d) =>
            if Js.strict_neq (Js.or_default status []) (Js.str "SUCCESS")
            then Workspace.ThrewError (Js.str "Unexpected API shape.")
            else Workspace.Returned d
        | Workspace.JsonValue status None =>
            Workspace.ThrewError (Js.str "Unexpected API shape.")
        end
  end.
Proof.
  unfold Workspace.call, Workspace.fetchProperties.
  destruct (respond _) as [message|res]; [reflexivity|].
  destruct (Workspace.ok res); [|reflexivity].
  destruct (Workspace.json res) as [reason| |jstatus [d'|]]; try reflexivity.
  cbv beta iota zeta delta [mbind mret Js.M_bind Js.M_ret Js.emit negb fst].
  by destruct (Js.strict_neq _ _).
Qed.

(** The effects of a call of [fetchProperties]. *)
Lemma fetchProperties_trace
    (String : Z → Js.jsstring)
    (respond : Workspace.Effect → Workspace.FetchResult)
    (page limit : Js.number) :
  (Workspace.call (Workspace.fetchProperties String respond page limit)).2 =
  [Workspace.SetAbortTimeout 15000; Workspace.Fetch Workspace.API_URL page limit]
  ++ match respond (Workspace.Fetch Workspace.API_URL page limit) with
     | Workspace.FetchResolved _ => [Workspace.ClearTimeout]
     | Workspace.FetchRejected _ => []
     end.
Proof.
  unfold Workspace.call, Workspace.fetchProperties.
  destruct (respond _) as [message|res]; [reflexivity|].
  destruct (Workspace.ok res); [|reflexivity].
  destruct (Workspace.json res) as [reason| |jstatus [d'|]]; try reflexivity.
  cbv beta iota zeta delta [mbind mret Js.M_bind Js.M_ret Js.emit negb snd].
  by destruct (Js.strict_neq _ _).
Qed.


End FetchProperties.

(** X22. [fetchProperties] returns the data exactly when the request
    resolves with an [ok] response whose body parses to a value with
    status ["SUCCESS"] and a [data] property; it returns that [data]. In
    every other case it throws, and an [Error] of its own has a non-empty
    message. *)
Theorem fetchProperties_returns_iff
    (String : Z → Js.jsstring)
    (respond : Workspace.Effect → Workspace.FetchResult)
    (page limit : Js.number) :
  let outcome :=
    (Workspace.call (Workspace.fetchProperties String respond page limit)).1 in
  (∀ d, outcome = Workspace.Returned d ↔
     ∃ res,
       respond (Workspace.Fetch Workspace.API_URL page limit) =
         Workspace.FetchResolved res ∧
       Workspace.ok res = true ∧
       Workspace.json res =
         Workspace.JsonValue (Some (Js.str "SUCCESS")) (Some d)) ∧
  (∀ message, outcome = Workspace.ThrewError message → message ≠ []) ∧
  (∀ message,
     respond (Workspace.Fetch Workspace.API_URL page limit) =
       Workspace.FetchRejected message →
     outcome = Workspace.ThrewError
                 (Js.str "Network error: "
                  ++ Js.or_default message (Js.str "unknown"))).
Proof.
  cbv zeta. rewrite fetchProperties_outcome.
  destruct (respond (Workspace.Fetch Workspace.API_URL page limit))
    as [message|res] eqn:R.
  { split; [|split].
    - intros d. split; [discriminate|]. by intros (res & [=] & _).
    - by intros m [= <-].
    - by intros m [= <-]. }
  destruct (Workspace.ok res) eqn:Hok; cbn [negb].
  2:{ split; [|split].
      - intros d. split; [discriminate|].
        intros (res' & [= <-] & Hok' & _). congruence.
      - by intros m [= <-].
      - discriminate. }
  destruct (Workspace.json res) as [reason| |jstatus [d'|]] eqn:J.
  1,2,4: split; [|split];
    [ intros d; split; [discriminate|];
      intros (res' & [= <-] & _ & ?); congruence
    | by intros m [= <-] | discriminate ].
  destruct (Js.strict_neq (Js.or_default jstatus []) (Js.str "SUCCESS")) eqn:S.
  - split; [|split].
    + intros d. split; [discriminate|].
      intros (res' & [= <-] & _ & J'). rewrite J in J'.
      injection J' as -> ->. by vm_compute in S.
    + by intros m [= <-].
    + discriminate.
  - apply strict_neq_false in S. split; [|split].
    + intros d. split.
      * intros [= ->]. exists res. split; [done|]. split; [done|].
        rewrite J. f_equal.
        destruct jstatus as [[|c s]|]; cbn in S; try discriminate.
        by rewrite S.
      * intros (res' & [= <-] & _ & J'). rewrite J in J'.
        by injection J' as _ ->.
    + discriminate.
    + discriminate.
Qed.

(** X23. [fetchProperties] arms the 15-second abort timer, then sends
    one POST to the properties endpoint with the page and the limit it
    was given. The timer is cleared exactly when the request resolves
    with a response; when the request itself fails, the call throws with
    the timer still armed. *)
Theorem fetchProperties_timer
    (String : Z → Js.jsstring)
    (respond : Workspace.Effect → Workspace.FetchResult)
    (page limit : Js.number) :
  let request := Workspace.Fetch Workspace.API_URL page limit in
  let trace :=
    (Workspace.call (Workspace.fetchProperties String respond page limit)).2 in
  match respond request with
  | Workspace.FetchResolved _ =>
      trace = [Workspace.SetAbortTimeout 15000; request; Workspace.ClearTimeout]
  | Workspace.FetchRejected _ =>
      trace = [Workspace.SetAbortTimeout 15000; request]
  end.
Proof.
  cbv zeta. rewrite fetchProperties_trace. by destruct (respond _).
Qed.


(** ** Status entries *)

Section StatusEntries.

Import SubstringSpec.

Lemma contains_suffix (a b s : Js.jsstring) :
  contains_ignoring_case (a ++ b) s → contains_ignoring_case b s.
Proof.
  intros (pre & mid & post & -> & F).
  apply Forall2_app_inv_l in F as (k1 & k2 & F1 & F2 & ->).
  exists (pre ++ k1), k2, post. split; [|done]. by rewrite <- !app_assoc.
Qed.

Lemma app_nonempty_r (a b : Js.jsstring) : b ≠ [] → a ++ b ≠ [].
Proof. intros Hb E. by apply app_eq_nil in E as [_ ?]. Qed.

End StatusEntries.

(** X25. The first of the two server tests is redundant: the server
    counts as up exactly when its status string contains ["started"] in
    any letter case, and that alone decides [ONLINE] and [OFFLINE]. *)
Theorem serverUp_iff_started (api : SecurityStatusContainer.Api.Data) :
  let text := Js.or_default (SecurityStatusContainer.Api.server api) [] in
  SecurityStatusContainer.serverUp api =
    Js.regex_test_i (Js.str "started") text ∧
  (SecurityStatusContainer.serverUp api = true ↔
   SubstringSpec.contains_ignoring_case (Js.str "started") text).
Proof.
  cbv zeta.
  assert (E : SecurityStatusContainer.serverUp api =
              Js.regex_test_i (Js.str "started")
                (Js.or_default (SecurityStatusContainer.Api.server api) [])).
  { unfold SecurityStatusContainer.serverUp.
    destruct (Js.regex_test_i (Js.str "server started") _) eqn:A; [|done].
    apply regex_test_i_spec in A.
    change (Js.str "server started")
      with (Js.str "server " ++ Js.str "started") in A.
    apply contains_suffix, regex_test_i_spec in A. by rewrite A. }
  split; [exact E|]. rewrite E. apply regex_test_i_spec.
Qed.

(** X26. For every snapshot [toStatuses] returns the five entries
    SERVER, DATABASE, CPU LOAD, MEMORY, WEBHOOK in this order, and the
    word shown for the server, the database and the webhook agrees with
    the colour: ONLINE, CONNECTED and ACTIVE come with [success], and
    OFFLINE, DISCONNECTED and INACTIVE with [destructive]. *)
Theorem statuses_value_matches_variant
    (parseFloat : Js.jsstring → Js.number)
    (String toFixed0 : Js.number → Js.jsstring)
    (api : SecurityStatusContainer.Api.Data) :
  let statuses :=
    SecurityStatusContainer.toStatuses parseFloat String toFixed0 api in
  let shows (entry : SecurityStatusContainer.SecurityStatusType)
        (title up down : string) :=
    SecurityStatusContainer.title entry = Js.str title ∧
    (SecurityStatusContainer.value entry = Js.str up ∧
     SecurityStatusContainer.variant entry = SecurityStatusContainer.success ∨
     SecurityStatusContainer.value entry = Js.str down ∧
     SecurityStatusContainer.variant entry =
       SecurityStatusContainer.destructive) in
  SecurityStatusContainer.title <$> statuses =
    [Js.str "SERVER"; Js.str "DATABASE"; Js.str "CPU LOAD"; Js.str "MEMORY";
     Js.str "WEBHOOK"] ∧
  (∃ entry, statuses !! 0%nat = Some entry ∧
            shows entry "SERVER"%string "ONLINE"%string "OFFLINE"%string) ∧
  (∃ entry, statuses !! 1%nat = Some entry ∧
            shows entry "DATABASE"%string "CONNECTED"%string
              "DISCONNECTED"%string) ∧
  (∃ entry, statuses !! 4%nat = Some entry ∧
            shows entry "WEBHOOK"%string "ACTIVE"%string "INACTIVE"%string).
Proof.
  cbv zeta. unfold SecurityStatusContainer.toStatuses,
    SecurityStatusContainer.serverLevel, SecurityStatusContainer.dbLevel,
    SecurityStatusContainer.hookLevel.
  split; [reflexivity|].
  split; [|split]; eexists; (split; [reflexivity|]); (split; [reflexivity|]);
    cbn [SecurityStatusContainer.value SecurityStatusContainer.variant].
  - destruct (SecurityStatusContainer.serverUp api); auto.
  - destruct (SecurityStatusContainer.dbConnected api); auto.
  - destruct (SecurityStatusContainer.hookOk api); auto.
Qed.

(** X27. The CPU entry shows [String(cpu)] for a finite reading and
    ["N/A"] otherwise. A reading that is NaN or +Infinity is drawn
    [destructive]; the reading -Infinity is drawn [success], although it
    shows ["N/A"]. *)
Theorem cpu_entry_not_available
    (parseFloat : Js.jsstring → Js.number)
    (String toFixed0 : Js.number → Js.jsstring)
    (api : SecurityStatusContainer.Api.Data) :
  let cpu := SecurityStatusContainer.cpu parseFloat api in
  ∃ entry,
    SecurityStatusContainer.toStatuses parseFloat String toFixed0 api
      !! 2%nat = Some entry ∧
    SecurityStatusContainer.title entry = Js.str "CPU LOAD" ∧
    match cpu with
    | S754_nan | S754_infinity false =>
        SecurityStatusContainer.value entry = Js.str "N/A" ∧
        SecurityStatusContainer.variant entry =
          SecurityStatusContainer.destructive
    | S754_infinity true =>
        SecurityStatusContainer.value entry = Js.str "N/A" ∧
        SecurityStatusContainer.variant entry =
          SecurityStatusContainer.success
    | S754_zero _ | S754_finite _ _ _ =>
        SecurityStatusContainer.value entry = String cpu
    end.
Proof.
  cbv zeta. eexists. split; [reflexivity|]. split; [reflexivity|].
  cbn [SecurityStatusContainer.value SecurityStatusContainer.variant].
  destruct (SecurityStatusContainer.cpu parseFloat api) as [s|[]| |s m e];
    try reflexivity; split; reflexivity.
Qed.

(** X28. What is missing from the snapshot is reported as such: without
    a server or database string (or with an empty one) the entry reads
    OFFLINE / DISCONNECTED with the placeholder text, without a webhook
    object the webhook is INACTIVE with "No webhook info", without a
    memory object the memory entry reads "N/A" / "No memory info", and a
    missing CPU load or memory percentage is read as the string "0". *)
Theorem statuses_of_missing_fields
    (parseFloat : Js.jsstring → Js.number)
    (String toFixed0 : Js.number → Js.jsstring)
    (api : SecurityStatusContainer.Api.Data) :
  ∃ server database cpu memory webhook,
    SecurityStatusContainer.toStatuses parseFloat String toFixed0 api =
      [server; database; cpu; memory; webhook] ∧
    (Js.or_default (SecurityStatusContainer.Api.server api) [] = [] →
     server =
       {| SecurityStatusContainer.title := Js.str "SERVER";
          SecurityStatusContainer.value := Js.str "OFFLINE";
          SecurityStatusContainer.status := Js.str "No server info";
          SecurityStatusContainer.variant :=
            SecurityStatusContainer.destructive |}) ∧
    (Js.or_default (SecurityStatusContainer.Api.dbStatus api) [] = [] →
     database =
       {| SecurityStatusContainer.title := Js.str "DATABASE";
          SecurityStatusContainer.value := Js.str "DISCONNECTED";
          SecurityStatusContainer.status := Js.str "No DB info";
          SecurityStatusContainer.variant :=
            SecurityStatusContainer.destructive |}) ∧
    (SecurityStatusContainer.Api.paymentWebhookStatus api = None →
     webhook =
       {| SecurityStatusContainer.title := Js.str "WEBHOOK";
          SecurityStatusContainer.value := Js.str "INACTIVE";
          SecurityStatusContainer.status := Js.str "No webhook info";
          SecurityStatusContainer.variant :=
            SecurityStatusContainer.destructive |}) ∧
    (SecurityStatusContainer.Api.memory api = None →
     SecurityStatusContainer.value memory = Js.str "N/A" ∧
     SecurityStatusContainer.status memory = Js.str "No memory info" ∧
     SecurityStatusContainer.memPct parseFloat api = parseFloat (Js.str "0")) ∧
    (Js.or_default (SecurityStatusContainer.Api.cpuLoad api) [] = [] →
     SecurityStatusContainer.cpu parseFloat api = parseFloat (Js.str "0")).
Proof.
  eexists _, _, _, _, _. split; [reflexivity|].
  destruct api as [server db cpuLoad memory hook].
  unfold SecurityStatusContainer.serverLevel, SecurityStatusContainer.dbLevel,
    SecurityStatusContainer.hookLevel, SecurityStatusContainer.serverUp,
    SecurityStatusContainer.dbConnected, SecurityStatusContainer.hookOk,
    SecurityStatusContainer.cpu, SecurityStatusContainer.memPct.
  cbn [SecurityStatusContainer.Api.server SecurityStatusContainer.Api.dbStatus
       SecurityStatusContainer.Api.cpuLoad SecurityStatusContainer.Api.memory
       SecurityStatusContainer.Api.paymentWebhookStatus].
  split; [|split; [|split; [|split]]].
  - intros E. rewrite E.
    destruct server as [[|c s]|]; try discriminate; reflexivity.
  - intros E. rewrite E.
    destruct db as [[|c s]|]; try discriminate; reflexivity.
  - intros ->. reflexivity.
  - intros ->. repeat split; reflexivity.
  - intros E. destruct cpuLoad as [[|c s]|]; try discriminate; reflexivity.
Qed.

(** X29. No entry of the panel has an empty title or an empty status
    line, and the server, database, memory and webhook entries always
    show a non-empty value. *)
Theorem statuses_never_blank
    (parseFloat : Js.jsstring → Js.number)
    (String toFixed0 : Js.number → Js.jsstring)
    (api : SecurityStatusContainer.Api.Data) :
  Forall (λ entry,
    SecurityStatusContainer.title entry ≠ [] ∧
    SecurityStatusContainer.status entry ≠ [] ∧
    (SecurityStatusContainer.title entry = Js.str "CPU LOAD" ∨
     SecurityStatusContainer.value entry ≠ []))
    (SecurityStatusContainer.toStatuses parseFloat String toFixed0 api).
Proof.
  unfold SecurityStatusContainer.toStatuses.
  repeat apply Forall_cons_2; try apply Forall_nil_2;
    cbn [SecurityStatusContainer.title SecurityStatusContainer.status
         SecurityStatusContainer.value];
    (split; [done|]); split;
    try (apply or_default_nonempty); try done.
  - right. by destruct (SecurityStatusContainer.serverUp api).
  - right. by destruct (SecurityStatusContainer.dbConnected api).
  - by left.
  - destruct (SecurityStatusContainer.Api.memory api); [|done].
    by apply app_nonempty_r.
  - right. destruct (SecurityStatusContainer.Api.memory api); [|done].
    apply app_nonempty_r. done.
  - by apply or_default_nonempty.
  - right. by destruct (SecurityStatusContainer.hookOk api).
Qed.
